(** * autoresearcher: the answer-synthesis and citation-assembly pipeline

    A shallow embedding of [generate_lit_review.py] and [combine_answers.py]
    and the properties of the pipeline they implement.

    Layout: Python values and exceptions, Python string operations, the
    effect monad for the external collaborators, the source functions,
    the vocabulary of the properties, scripted collaborators for concrete
    runs, and then the lemmas and theorems. *)

From Stdlib Require Import ZArith List String Ascii Bool Lia DecimalString.
Import ListNotations.
Local Open Scope list_scope.
Local Open Scope string_scope.

(* ================================================================= *)
(** ** Python values and exceptions *)

(** The values [json.load] / [response.json()] can produce, which is also
    what a "paper" is at run time.  A [float] is carried as its IEEE-754
    bit pattern; the pipeline never computes with one. *)
#[warnings="-register-all"] Inductive pyvalue : Type :=
| PNone
| PBool (b : bool)
| PInt (n : Z)
| PFloat (bits : Z)
| PStr (s : string)
| PList (items : list pyvalue)
| PDict (items : list (string * pyvalue)).

(** The exception classes the pipeline can meet.  [JSONDecodeError] is a
    subclass of [ValueError]; [ExternalError] stands for whatever a
    collaborator raises that is not a [ValueError] (a connection error, an
    API error). *)
Inductive exn : Type :=
| AttributeError
| KeyError
| IndexError
| TypeError
| ValueError
| JSONDecodeError
| ExternalError (what : string).

(** [isinstance(e, ValueError)], the test of [except ValueError]. *)
Definition is_ValueError (e : exn) : bool :=
  match e with
  | ValueError | JSONDecodeError => true
  | _ => false
  end.

Definition result (A : Type) : Type := (exn + A)%type.

(* ================================================================= *)
(** ** Python string operations *)

Definition nl : string := String "010"%char "".
Definition dquote : string := String "034"%char "".

Module Py.

Fixpoint drop (n : nat) (s : string) : string :=
  match n, s with
  | O, _ => s
  | S _, EmptyString => EmptyString
  | S n', String _ s' => drop n' s'
  end.

Fixpoint take (n : nat) (s : string) : string :=
  match n, s with
  | O, _ => EmptyString
  | S _, EmptyString => EmptyString
  | S n', String c s' => String c (take n' s')
  end.

(** [len(s)] *)
Definition len (s : string) : Z := Z.of_nat (String.length s).

(** [s[k:]], with Python's treatment of a negative start. *)
Definition slice_from (k : Z) (s : string) : string :=
  if (k <? 0)%Z then drop (Z.to_nat (Z.max 0 (len s + k))) s
  else drop (Z.to_nat k) s.

(** Highest index at which [sub] starts in [s], if any. *)
Fixpoint last_index (sub s : string) : option nat :=
  match s with
  | EmptyString => if prefix sub EmptyString then Some O else None
  | String _ s' =>
      match last_index sub s' with
      | Some i => Some (S i)
      | None => if prefix sub s then Some O else None
      end
  end.

(** [s.rfind(sub)]: the highest index, or [-1]. *)
Definition rfind (s sub : string) : Z :=
  match last_index sub s with
  | Some i => Z.of_nat i
  | None => (-1)%Z
  end.

(** [sub in s] on strings. *)
Fixpoint contains (sub s : string) : bool :=
  prefix sub s ||
  match s with
  | EmptyString => false
  | String _ s' => contains sub s'
  end.

(** [sep.join(ls)] is [String.concat sep ls]. *)
Definition join (sep : string) (ls : list string) : string :=
  String.concat sep ls.

(** [str(n)] for an [int]. *)
Definition str_of_int (n : Z) : string :=
  NilZero.string_of_int (Z.to_int n).

(** [enumerate(l)], counting from [start]. *)
Fixpoint enumerate_from {A : Type} (start : Z) (l : list A) : list (Z * A) :=
  match l with
  | [] => []
  | x :: l' => (start, x) :: enumerate_from (start + 1)%Z l'
  end.

Definition enumerate {A : Type} (l : list A) : list (Z * A) :=
  enumerate_from 0%Z l.

(** Key lookup in a [dict]. *)
Fixpoint assoc (key : string) (items : list (string * pyvalue))
  : option pyvalue :=
  match items with
  | [] => None
  | (k, v) :: items' => if String.eqb k key then Some v else assoc key items'
  end.

Definition is_str (key : string) (v : pyvalue) : bool :=
  match v with
  | PStr s => String.eqb s key
  | _ => false
  end.

(** [obj.get(key, default)]: only a [dict] has the method. *)
Definition get (obj : pyvalue) (key : string) (default : pyvalue)
  : result pyvalue :=
  match obj with
  | PDict items =>
      match assoc key items with
      | Some v => inr v
      | None => inr default
      end
  | _ => inl AttributeError
  end.

(** [key in obj] for a string [key]. *)
Definition has (key : string) (obj : pyvalue) : result bool :=
  match obj with
  | PDict items =>
      inr (match assoc key items with Some _ => true | None => false end)
  | PList items => inr (existsb (is_str key) items)
  | PStr s => inr (contains key s)
  | _ => inl TypeError
  end.

(** [obj[key]] for a string [key]. *)
Definition getitem (obj : pyvalue) (key : string) : result pyvalue :=
  match obj with
  | PDict items =>
      match assoc key items with
      | Some v => inr v
      | None => inl KeyError
      end
  | _ => inl TypeError
  end.

(** [obj[i]] for an [int] [i].  The keys of a parsed JSON object are
    strings, so an [int] is never among them. *)
Definition getitem_int (obj : pyvalue) (i : Z) : result pyvalue :=
  match obj with
  | PDict _ => inl KeyError
  | PList items =>
      let n := Z.of_nat (List.length items) in
      let j := if (i <? 0)%Z then (i + n)%Z else i in
      if ((j <? 0) || (n <=? j))%Z then inl IndexError
      else match nth_error items (Z.to_nat j) with
           | Some v => inr v
           | None => inl IndexError
           end
  | PStr s =>
      let n := len s in
      let j := if (i <? 0)%Z then (i + n)%Z else i in
      if ((j <? 0) || (n <=? j))%Z then inl IndexError
      else inr (PStr (take 1 (drop (Z.to_nat j) s)))
  | _ => inl TypeError
  end.


(** [str.isspace] of one character.  Characters are the code points
    below 256; among them Python counts as whitespace 9-13, 28-32, 133
    and 160. *)
Definition isspace (c : ascii) : bool :=
  let n := nat_of_ascii c in
  ((9 <=? n)%nat && (n <=? 13)%nat) || ((28 <=? n)%nat && (n <=? 32)%nat)
  || (n =? 133)%nat || (n =? 160)%nat.

Fixpoint lstrip (s : string) : string :=
  match s with
  | EmptyString => EmptyString
  | String c s' => if isspace c then lstrip s' else s
  end.

Fixpoint rstrip (s : string) : string :=
  match s with
  | EmptyString => EmptyString
  | String c s' =>
      match rstrip s' with
      | EmptyString => if isspace c then EmptyString else String c EmptyString
      | r => String c r
      end
  end.

(** [s.strip()] *)
Definition strip (s : string) : string := rstrip (lstrip s).

(** [c.lower()] for a code point below 256: A-Z and the capital letters
    192-222 (215, the multiplication sign, apart) move up by 32. *)
Definition lower_char (c : ascii) : ascii :=
  let n := nat_of_ascii c in
  if ((65 <=? n)%nat && (n <=? 90)%nat)
     || ((192 <=? n)%nat && (n <=? 222)%nat && negb (n =? 215)%nat)
  then ascii_of_nat (n + 32) else c.

(** [s.lower()] *)
Fixpoint lower (s : string) : string :=
  match s with
  | EmptyString => EmptyString
  | String c s' => String (lower_char c) (lower s')
  end.

(** Lowest index at which [sub] starts in [s], if any. *)
Fixpoint first_index (sub s : string) : option nat :=
  if prefix sub s then Some O
  else match s with
       | EmptyString => None
       | String _ s' => option_map S (first_index sub s')
       end.

(** [s.find(sub)]: the lowest index, or [-1]. *)
Definition find (s sub : string) : Z :=
  match first_index sub s with
  | Some i => Z.of_nat i
  | None => (-1)%Z
  end.

(** The pieces of [s] between the occurrences of [sep], taken from the
    left and without overlap; [skip] counts the characters of a
    separator still to be passed over. *)
Fixpoint split_from (sep s : string) (skip : nat) : list string :=
  match s with
  | EmptyString => [EmptyString]
  | String c s' =>
      match skip with
      | S k => split_from sep s' k
      | O =>
          if prefix sep s then
            EmptyString :: split_from sep s' (String.length sep - 1)
          else match split_from sep s' O with
               | piece :: pieces => String c piece :: pieces
               | [] => [String c EmptyString]
               end
      end
  end.

(** [s.split(sep)]; an empty separator is a [ValueError]. *)
Definition split (s sep : string) : result (list string) :=
  match sep with
  | EmptyString => inl ValueError
  | _ => inr (split_from sep s O)
  end.

(** [l[i]] for a list and an [int] [i]. *)
Definition index {A : Type} (l : list A) (i : Z) : result A :=
  let n := Z.of_nat (List.length l) in
  let j := if (i <? 0)%Z then (i + n)%Z else i in
  if ((j <? 0) || (n <=? j))%Z then inl IndexError
  else match nth_error l (Z.to_nat j) with
       | Some v => inr v
       | None => inl IndexError
       end.

(** [s + v] for a string [s]: only a string can be added. *)
Definition add_str (s : string) (v : pyvalue) : result string :=
  match v with
  | PStr t => inr (s ++ t)
  | _ => inl TypeError
  end.

(** [v.strip()]: only a string has the method. *)
Definition method_strip (v : pyvalue) : result string :=
  match v with
  | PStr s => inr (strip s)
  | _ => inl AttributeError
  end.

End Py.

(* ================================================================= *)
(** ** External collaborators and the effect monad *)

(** What [requests.get] hands back: the [.text] attribute and the outcome
    of the [.json()] method. *)
Record Response : Type := {
  text : string;
  json : result pyvalue
}.

(** The calls that leave the process, in the order they are made. *)
Inductive event : Type :=
| CompletionCall (prompt : string) (use_gpt4 : bool) (temperature : pyvalue)
                 (max_tokens : Z)
| HttpGet (url : string)
| Tokenize (text : string).

(** The collaborators, each a transition on the state of the outside
    world: [openai_call] (module [openai_call]), [requests.get],
    [tiktoken]'s [encode], the [EMAIL] setting, and Python's rendering of
    a non-string value inside an f-string or [str.format]. *)
Record Services (World : Type) : Type := {
  openai_call : string -> bool -> pyvalue -> Z -> World -> result string * World;
  requests_get : string -> World -> result Response * World;
  tiktoken_encode : string -> World -> result (list Z) * World;
  EMAIL : string;
  py_repr : pyvalue -> string
}.

Arguments openai_call {World} _ _ _ _ _ _.
Arguments requests_get {World} _ _ _.
Arguments tiktoken_encode {World} _ _ _.
Arguments EMAIL {World} _.
Arguments py_repr {World} _ _.

Section Effects.

Context {World : Type} (svc : Services World).

(** State of a run: the outside world and the calls made so far. *)
Definition state : Type := (World * list event)%type.

Definition M (A : Type) : Type := state -> result A * state.

Definition ret {A : Type} (a : A) : M A := fun st => (inr a, st).

Definition lift {A : Type} (r : result A) : M A := fun st => (r, st).

Definition bind {A B : Type} (m : M A) (k : A -> M B) : M B :=
  fun st =>
    match m st with
    | (inl e, st') => (inl e, st')
    | (inr a, st') => k a st'
    end.

(** [try: body except <class>: handler] *)
Definition try_except {A : Type} (body : M A) (catches : exn -> bool)
           (handler : M A) : M A :=
  fun st =>
    match body st with
    | (inl e, st') => if catches e then handler st' else (inl e, st')
    | (inr a, st') => (inr a, st')
    end.

Definition call_openai (prompt : string) (use_gpt4 : bool)
           (temperature : pyvalue) (max_tokens : Z) : M string :=
  fun st =>
    let (r, w) := openai_call svc prompt use_gpt4 temperature max_tokens (fst st) in
    (r, (w, snd st ++ [CompletionCall prompt use_gpt4 temperature max_tokens])%list).

Definition call_requests_get (url : string) : M Response :=
  fun st =>
    let (r, w) := requests_get svc url (fst st) in
    (r, (w, snd st ++ [HttpGet url])%list).

Definition call_encode (text : string) : M (list Z) :=
  fun st =>
    let (r, w) := tiktoken_encode svc text (fst st) in
    (r, (w, snd st ++ [Tokenize text])%list).

(** [str(v)] / [f"{v}"]. *)
Definition py_str (v : pyvalue) : string :=
  match v with
  | PStr s => s
  | _ => py_repr svc v
  end.

End Effects.

Notation "x <- m ;; k" := (bind m (fun x => k))
  (at level 61, m at next level, right associativity).

(* ================================================================= *)
(** ** generate_lit_review.py and combine_answers.py *)

(** The marker [extract_citations] searches for, the separator the
    extractor writes, and the extractor's [default_answer]. *)
Definition SOURCE_marker : string := "SOURCE: ".
Definition SOURCE_separator : string := " SOURCE: ".
Definition default_answer : string := "No answer found.".

(** [extract_answer_prompt.format(research_question=.., abstract=..)] *)
Definition extract_answer_prompt (research_question abstract : string) : string :=
  ("" ++ nl ++
    "    `reset`" ++ nl ++
    "    `no quotes`" ++ nl ++
    "    `no explanations`" ++ nl ++
    "    `no prompt`" ++ nl ++
    "    `no self-reference`" ++ nl ++
    "    `no apologies`" ++ nl ++
    "    `no filler`" ++ nl ++
    "    `just answer`" ++ nl ++
    "" ++ nl ++
    "    I will give you the abstract of an academic paper. Extract the answer to this research question: ")
  ++ research_question ++
  (" from the abstract." ++ nl ++
    "" ++ nl ++
    "    If the answer is not in the abstract, then you are only allowed to respond with 'No answer found'." ++ nl ++
    "" ++ nl ++
    "    This is the abstract: ")
  ++ abstract ++
  ("" ++ nl ++
    "    ").

(** [literature_review_prompt.format(research_question=.., answer_list=..)];
    the template opens with a double quote character. *)
Definition literature_review_prompt (research_question answer_list : string) : string :=
  (dquote ++ nl ++
    "`reset`" ++ nl ++
    "`no quotes`" ++ nl ++
    "`no explanations`" ++ nl ++
    "`no prompt`" ++ nl ++
    "`no self-reference`" ++ nl ++
    "`no apologies`" ++ nl ++
    "`no filler`" ++ nl ++
    "`just answer`" ++ nl ++
    "" ++ nl ++
    "I will give you a list of research findings and a research question." ++ nl ++
    "" ++ nl ++
    "Synthesize the list of research findings to generate a scientific literature review. Also, identify knowledge gaps and future research directions." ++ nl ++
    "" ++ nl ++
    "Make sure to always reference every research finding you use with in-text citations in APA format using the source provided. " ++ nl ++
    "" ++ nl ++
    "Only use the research findings I provide you with to create your literature review. Only give me the output and nothing else." ++ nl ++
    "" ++ nl ++
    "Now, using the concepts above, create a literature review for this research question '")
  ++ research_question ++
  ("' using the following research findings:" ++ nl ++
    "" ++ nl)
  ++ answer_list ++
  nl.

(** [extract_citations(answers)] *)
Fixpoint extract_citations (answers : list string) : list string :=
  match answers with
  | [] => []
  | answer :: rest =>
      let citation_start := Py.rfind answer SOURCE_marker in
      if negb (citation_start =? -1)%Z then
        Py.slice_from (citation_start + Py.len SOURCE_marker)%Z answer
          :: extract_citations rest
      else extract_citations rest
  end.

(** The f-string of line 123. *)
Definition answer_with_citation (answer citation : string) : string :=
  answer ++ SOURCE_separator ++ citation.

(** The reference lines of [literature_review]:
    [f"{idx + 1}. {citation}" for idx, citation in enumerate(citations)]. *)
Definition reference_lines (citations : list string) : list string :=
  map (fun ic => Py.str_of_int (fst ic + 1)%Z ++ ". " ++ snd ic)
      (Py.enumerate citations).

(** The 64 bits of the [float] literal [0.1]. *)
Definition float_0_1 : pyvalue := PFloat 0x3FB999999999999A%Z.

Section Pipeline.

Context {World : Type} (svc : Services World).

(** The lookup address, [f"https://api.citeas.org/product/{doi}?email={EMAIL}"]. *)
Definition citeas_url (doi : pyvalue) : string :=
  "https://api.citeas.org/product/" ++ py_str svc doi ++ "?email=" ++ EMAIL svc.

(** [get_citation_by_doi(doi)] *)
Definition get_citation_by_doi (doi : pyvalue) : M pyvalue :=
  let url := citeas_url doi in
  response <- call_requests_get svc url ;;
  try_except
    (data <- lift (json response) ;;
     citations <- lift (Py.getitem data "citations") ;;
     first <- lift (Py.getitem_int citations 0) ;;
     lift (Py.getitem first "citation"))
    is_ValueError
    (ret (PStr (text response))).

(** The citation of one paper (lines 108-111). *)
Definition paper_citation (paper : pyvalue) : M pyvalue :=
  has_ids <- lift (Py.has "externalIds" paper) ;;
  has_doi <- (if has_ids : bool then
                ids <- lift (Py.getitem paper "externalIds") ;;
                lift (Py.has "DOI" ids)
              else ret false) ;;
  if has_doi : bool then
    ids <- lift (Py.getitem paper "externalIds") ;;
    doi <- lift (Py.getitem ids "DOI") ;;
    get_citation_by_doi doi
  else lift (Py.getitem paper "url").

(** One iteration of the loop of [extract_answers_from_papers]
    (lines 106-126); the [title] is read for the progress line only. *)
Definition process_paper (research_question : string) (use_gpt4 : bool)
           (temperature : pyvalue) (max_tokens : Z)
           (paper : pyvalue) (answers : list string) : M (list string) :=
  abstract <- lift (Py.get paper "abstract" (PStr "")) ;;
  _title <- lift (Py.get paper "title" (PStr "")) ;;
  citation <- paper_citation paper ;;
  let prompt := extract_answer_prompt research_question (py_str svc abstract) in
  answer <- call_openai svc prompt use_gpt4 temperature max_tokens ;;
  if negb (String.eqb answer default_answer) then
    ret (answers ++ [answer_with_citation answer (py_str svc citation)])%list
  else ret answers.

Fixpoint process_papers (research_question : string) (use_gpt4 : bool)
         (temperature : pyvalue) (max_tokens : Z)
         (papers : list pyvalue) (answers : list string) : M (list string) :=
  match papers with
  | [] => ret answers
  | paper :: rest =>
      answers' <- process_paper research_question use_gpt4 temperature
                                max_tokens paper answers ;;
      process_papers research_question use_gpt4 temperature max_tokens
                     rest answers'
  end.

(** [extract_answers_from_papers(papers, research_question, use_gpt4,
    temperature, max_tokens)] *)
Definition extract_answers_from_papers (papers : list pyvalue)
           (research_question : string) (use_gpt4 : bool)
           (temperature : pyvalue) (max_tokens : Z) : M (list string) :=
  process_papers research_question use_gpt4 temperature max_tokens papers [].

(** [count_tokens(text)] *)
Definition count_tokens (text : string) : M Z :=
  tokens <- call_encode svc text ;;
  ret (Z.of_nat (List.length tokens)).

(** The prompt [combine_answers] renders (lines 44-48). *)
Definition synthesis_prompt (answers : list string) (research_question : string)
  : string :=
  let answer_list := Py.join (nl ++ nl) answers in
  literature_review_prompt research_question answer_list.

(** [combine_answers(answers, research_question, use_gpt4, temperature)] *)
Definition combine_answers (answers : list string) (research_question : string)
           (use_gpt4 : bool) (temperature : pyvalue) : M string :=
  let prompt := synthesis_prompt answers research_question in
  input_tokens <- count_tokens prompt ;;
  let remaining_tokens := (4080 - input_tokens)%Z in
  let max_tokens := Z.max remaining_tokens 0 in
  call_openai svc prompt use_gpt4 temperature max_tokens.

(** [literature_review(research_question, top_papers, manualAnswers)] *)
Definition literature_review (research_question : string)
           (top_papers manualAnswers : list pyvalue) : M string :=
  let top_papers := (top_papers ++ manualAnswers)%list in
  answers <- extract_answers_from_papers top_papers research_question
                                         false (PInt 0) 150 ;;
  literature_review <- combine_answers answers research_question
                                       false float_0_1 ;;
  let citations := extract_citations answers in
  let references_list := Py.join nl (reference_lines citations) in
  let literature_review :=
    literature_review ++ ((nl ++ nl ++ "References:" ++ nl) ++ references_list) in
  let literature_review := literature_review ++ "resultEnd" in
  ret literature_review.

End Pipeline.

(* ================================================================= *)
(** ** autoresearcher.py *)

Module Autoresearcher.

(** The collaborators of this file: the text of the first choice of a
    chat completion, [openai.ChatCompletion.create(...)
    .choices[0].message.content] for the given keyword arguments, and the paper search of module
    [symantic_scholar_loader]. *)
Record Collaborators (World : Type) : Type := {
  Loader : Type;
  chat_completion_content :
    list (string * pyvalue) -> World -> result pyvalue * World;
  SemanticScholarLoader : pyvalue -> World -> result Loader * World;
  fetch_and_sort_papers :
    Loader -> string -> list string -> string -> World -> result pyvalue * World
}.

Arguments Loader {World} _.
Arguments chat_completion_content {World} _ _ _.
Arguments SemanticScholarLoader {World} _ _ _.
Arguments fetch_and_sort_papers {World} _ _ _ _ _ _.

(** [keyword_combination_prompt.format(research_question=..)] *)
Definition keyword_combination_prompt (research_question : string) : string :=
  ("" ++ nl ++
    "    `reset`" ++ nl ++
    "    `no quotes`" ++ nl ++
    "    `no explanations`" ++ nl ++
    "    `no prompt`" ++ nl ++
    "    `no self-reference`" ++ nl ++
    "    `no apologies`" ++ nl ++
    "    `no filler`" ++ nl ++
    "    `just answer`" ++ nl ++
    "" ++ nl ++
    "    Generate several keyword combinations based on the following research question: ")
  ++ research_question ++
  ("." ++ nl ++
    "    Don't generate more than 5 keyword combinations." ++ nl ++
    "" ++ nl ++
    "    The output should be structured like this:" ++ nl ++
    "    Write " ++ dquote ++ "KeywordCombination:" ++ dquote ++ " and then list the keywords like so " ++ dquote ++ "Keyword,Keyword,Keyword" ++ dquote ++ "" ++ nl ++
    "" ++ nl ++
    "    ").

(** The keyword arguments of the two [openai.ChatCompletion.create] calls
    of [openai_call]. *)
Definition gpt_3_5_turbo_kwargs (prompt : string) (temperature : pyvalue)
           (max_tokens : Z) : list (string * pyvalue) :=
  let messages := PList [PDict [("role", PStr "user"); ("content", PStr prompt)]] in
  [("model", PStr "gpt-3.5-turbo");
   ("messages", messages);
   ("temperature", temperature);
   ("max_tokens", PInt max_tokens);
   ("top_p", PInt 1);
   ("frequency_penalty", PInt 0);
   ("presence_penalty", PInt 0)].

Definition gpt_4_kwargs (prompt : string) (temperature : pyvalue)
           (max_tokens : Z) : list (string * pyvalue) :=
  let messages := PList [PDict [("role", PStr "user"); ("content", PStr prompt)]] in
  [("model", PStr "gpt-4");
   ("messages", messages);
   ("temperature", temperature);
   ("max_tokens", PInt max_tokens);
   ("n", PInt 1);
   ("stop", PNone)].

(** The list comprehension of [generate_keyword_combinations]:
    [combination.split(": ")[1] for combination in combinations
     if ": " in combination]. *)
Fixpoint keyword_entries (combinations : list string) : result (list string) :=
  match combinations with
  | [] => inr []
  | combination :: rest =>
      if Py.contains ": " combination then
        match Py.split combination ": " with
        | inl e => inl e
        | inr parts =>
            match Py.index parts 1 with
            | inl e => inl e
            | inr entry =>
                match keyword_entries rest with
                | inl e => inl e
                | inr entries => inr (entry :: entries)
                end
            end
        end
      else keyword_entries rest
  end.

Section Functions.

Context {World : Type} (col : Collaborators World).

Definition call_chat (kwargs : list (string * pyvalue)) : @M World pyvalue :=
  fun st =>
    let (r, w) := chat_completion_content col kwargs (fst st) in (r, (w, snd st)).

Definition call_loader (SS_key : pyvalue) : @M World (Loader col) :=
  fun st =>
    let (r, w) := SemanticScholarLoader col SS_key (fst st) in (r, (w, snd st)).

Definition call_fetch (loader : Loader col) (search_query : string)
           (keyword_combinations : list string) (year_range : string)
  : @M World pyvalue :=
  fun st =>
    let (r, w) := fetch_and_sort_papers col loader search_query
                                        keyword_combinations year_range (fst st) in
    (r, (w, snd st)).

(** [openai_call(prompt, use_gpt4, temperature, max_tokens)] *)
Definition openai_call (prompt : string) (use_gpt4 : bool)
           (temperature : pyvalue) (max_tokens : Z) : @M World string :=
  if negb use_gpt4 then
    content <- call_chat (gpt_3_5_turbo_kwargs prompt temperature max_tokens) ;;
    lift (Py.method_strip content)
  else
    content <- call_chat (gpt_4_kwargs prompt temperature max_tokens) ;;
    lift (Py.method_strip content).

(** [generate_keyword_combinations(research_question)] *)
Definition generate_keyword_combinations (research_question : string)
  : @M World (list string) :=
  let prompt := keyword_combination_prompt research_question in
  response <- openai_call prompt false (PInt 0) 200 ;;
  combinations <- lift (Py.split response nl) ;;
  lift (keyword_entries combinations).

(** [literature_review(research_question, SS_key)] of this file: the
    search for papers. *)
Definition literature_review (research_question : string) (SS_key : pyvalue)
  : @M World pyvalue :=
  _banner <- lift (Py.add_str "SS_key :" SS_key) ;;
  SemanticScholar <- call_loader SS_key ;;
  keyword_combinations <- generate_keyword_combinations research_question ;;
  let search_query := research_question in
  top_papers <- call_fetch SemanticScholar search_query keyword_combinations
                           "2000-2023" ;;
  ret top_papers.

End Functions.

End Autoresearcher.

(* ================================================================= *)
(** ** get_manual_answers.py *)

Module ManualAnswers.

(** What [PdfReader] gives: [len(pdf.pages)] and, for an index,
    [pdf.pages[index].extract_text()]. *)
Record PdfDocument : Type := {
  num_pages : result Z;
  page_text : Z -> result string
}.

(** The collaborators of this file: [openai_call] as before, the body of
    an S3 object ([get_object(Bucket, Key)['Body'].read()]),
    [PdfReader(BytesIO(pdf_data))] and the [bucketName] setting. *)
Record Collaborators (World : Type) : Type := {
  services : Services World;
  s3_get_object_body :
    string -> string -> World -> result (list Byte.byte) * World;
  PdfReader : option (list Byte.byte) -> World -> result PdfDocument * World;
  bucketName : string
}.

Arguments services {World} _.
Arguments s3_get_object_body {World} _ _ _ _.
Arguments PdfReader {World} _ _ _.
Arguments bucketName {World} _.

(** Truth value of what [extract_answer_from_abstract] returns. *)
Definition truthy (answer : option string) : bool :=
  match answer with
  | None => false
  | Some EmptyString => false
  | Some _ => true
  end.

(** [str(answer)] inside the f-string. *)
Definition answer_text (answer : option string) : string :=
  match answer with
  | None => "None"
  | Some s => s
  end.

Section Functions.

Context {World : Type} (col : Collaborators World).

Definition call_s3 (bucket_name file_key : string)
  : @M World (list Byte.byte) :=
  fun st =>
    let (r, w) := s3_get_object_body col bucket_name file_key (fst st) in
    (r, (w, snd st)).

Definition call_PdfReader (pdf_data : option (list Byte.byte))
  : @M World PdfDocument :=
  fun st => let (r, w) := PdfReader col pdf_data (fst st) in (r, (w, snd st)).

(** [read_pdf_from_s3(bucket_name, file_key)] *)
Definition read_pdf_from_s3 (bucket_name file_key : string)
  : @M World (option (list Byte.byte)) :=
  try_except
    (pdf_data <- call_s3 bucket_name file_key ;; ret (Some pdf_data))
    (fun _ => true)
    (ret None).

(** [extract_abstract_from_pdf(pdf_data, page_number)]: the abstract, or
    [None]. *)
Definition extract_abstract_from_pdf (pdf_data : option (list Byte.byte))
           (page_number : Z) : @M World pyvalue :=
  pdf <- call_PdfReader pdf_data ;;
  pages <- lift (num_pages pdf) ;;
  if (page_number <? pages)%Z then
    text <- lift (page_text pdf page_number) ;;
    let abstract_start := Py.find (Py.lower text) "abstract" in
    if negb (abstract_start =? -1)%Z then
      ret (PStr (Py.slice_from abstract_start text))
    else ret PNone
  else ret PNone.

(** [extract_answer_from_abstract(abstract, research_question, use_gpt4,
    temperature, max_tokens)]: the answer, or [None]. *)
Definition extract_answer_from_abstract (abstract : pyvalue)
           (research_question : string) (use_gpt4 : bool)
           (temperature : pyvalue) (max_tokens : Z) : @M World (option string) :=
  let prompt := extract_answer_prompt research_question
                                      (py_str (services col) abstract) in
  answer <- call_openai (services col) prompt use_gpt4 temperature max_tokens ;;
  if negb (String.eqb answer default_answer) then ret (Some answer)
  else ret None.

(** One iteration of the loop of [extract_answer_from_paper]. *)
Definition process_file_key (bucket_name research_question : string)
           (use_gpt4 : bool) (temperature : pyvalue) (max_tokens : Z)
           (file_key : string) (answers : list string) : @M World (list string) :=
  pdf_file <- read_pdf_from_s3 bucket_name file_key ;;
  abstract <- extract_abstract_from_pdf pdf_file 0 ;;
  segments <- lift (Py.split file_key "/") ;;
  citation <- lift (Py.index segments (-1)) ;;
  answer <- extract_answer_from_abstract abstract research_question use_gpt4
                                         temperature max_tokens ;;
  if truthy answer then
    ret (answers ++ [answer_with_citation (answer_text answer) citation])%list
  else ret answers.

Fixpoint process_file_keys (bucket_name research_question : string)
         (use_gpt4 : bool) (temperature : pyvalue) (max_tokens : Z)
         (file_keys : list string) (answers : list string)
  : @M World (list string) :=
  match file_keys with
  | [] => ret answers
  | file_key :: rest =>
      answers' <- process_file_key bucket_name research_question use_gpt4
                                   temperature max_tokens file_key answers ;;
      process_file_keys bucket_name research_question use_gpt4 temperature
                        max_tokens rest answers'
  end.

(** [extract_answer_from_paper(bucket_name, file_keys, research_question,
    use_gpt4, temperature, max_tokens)] *)
Definition extract_answer_from_paper (bucket_name : string)
           (file_keys : list string) (research_question : string)
           (use_gpt4 : bool) (temperature : pyvalue) (max_tokens : Z)
  : @M World (list string) :=
  process_file_keys bucket_name research_question use_gpt4 temperature
                    max_tokens file_keys [].

(** [extract_answers(urls, research_question)] *)
Definition extract_answers (urls research_question : string)
  : @M World (list string) :=
  let bucket_name := bucketName col in
  file_keys <- lift (Py.split urls ",") ;;
  extract_answer_from_paper bucket_name file_keys research_question
                            false (PInt 0) 150.

End Functions.

End ManualAnswers.

(* ================================================================= *)
(** ** Vocabulary of the properties *)

(** [sub] occurs in [s] at offset [i]. *)
Definition occurs_at (sub s : string) (i : nat) : Prop :=
  exists pre post, s = pre ++ sub ++ post /\ String.length pre = i.

(** [sub] occurs nowhere in [s]. *)
Definition lacks (sub s : string) : Prop :=
  forall i, ~ occurs_at sub s i.

(** [i] is the offset of the last occurrence of [sub] in [s]. *)
Definition last_occurrence (sub s : string) (i : nat) : Prop :=
  occurs_at sub s i /\ forall j, occurs_at sub s j -> (j <= i)%nat.

(** [sub] occurs in [s] at offset [i] and nowhere else. *)
Definition only_occurrence (sub s : string) (i : nat) : Prop :=
  occurs_at sub s i /\ forall j, occurs_at sub s j -> j = i.

(** [citation] is the text of [answer] after the last "SOURCE: ". *)
Definition cites (answer citation : string) : Prop :=
  exists pre,
    answer = pre ++ SOURCE_marker ++ citation /\
    last_occurrence SOURCE_marker answer (String.length pre).

(** The citations assembled from a list of answers, in the words of the
    specification: an answer with the marker gives the text after its last
    occurrence, an answer without it gives nothing, order is kept. *)
Inductive assembled : list string -> list string -> Prop :=
| assembled_nil : assembled [] []
| assembled_skip answer rest citations :
    lacks SOURCE_marker answer ->
    assembled rest citations ->
    assembled (answer :: rest) citations
| assembled_cite answer citation rest citations :
    cites answer citation ->
    assembled rest citations ->
    assembled (answer :: rest) (citation :: citations).

(** [l1] is [l2] with some elements left out, order kept. *)
Inductive subseq {A : Type} : list A -> list A -> Prop :=
| subseq_nil : subseq [] []
| subseq_skip x l1 l2 : subseq l1 l2 -> subseq l1 (x :: l2)
| subseq_keep x l1 l2 : subseq l1 l2 -> subseq (x :: l1) (x :: l2).

(** The numbered reference list in the words of the specification: line
    [k] (counting from 1) is the decimal numeral of [k], a dot, a space and
    the [k]-th citation; lines are joined by a newline. *)
Definition numbered_line (citations : list string) (k : nat) : string :=
  Py.str_of_int (Z.of_nat (S k)) ++ ". " ++ nth k citations "".

Definition numbered_references (citations : list string) : string :=
  String.concat nl (map (numbered_line citations) (seq 0 (List.length citations))).

Section ExtractionRelation.

Context {World : Type} (svc : Services World).
Variables (research_question : string) (use_gpt4 : bool)
          (temperature : pyvalue) (max_tokens : Z).

(** Steps 1 to 6 of the extractor, paper by paper, threading the state of
    the run: [extraction st papers kept answers st'] says that from [st]
    the papers [kept] (in order) are the ones that yield the [answers]
    (in order), every other paper having drawn the sentinel. *)
Inductive extraction : state -> list pyvalue -> list pyvalue -> list string
                       -> state -> Prop :=
| extraction_done st : extraction st [] [] [] st
| extraction_discard st st1 st2 st3 paper abstract citation rest kept answers :
    Py.get paper "abstract" (PStr "") = inr abstract ->
    paper_citation svc paper st = (inr citation, st1) ->
    call_openai svc (extract_answer_prompt research_question (py_str svc abstract))
                use_gpt4 temperature max_tokens st1 = (inr default_answer, st2) ->
    extraction st2 rest kept answers st3 ->
    extraction st (paper :: rest) kept answers st3
| extraction_emit st st1 st2 st3 paper abstract citation completion rest kept answers :
    Py.get paper "abstract" (PStr "") = inr abstract ->
    paper_citation svc paper st = (inr citation, st1) ->
    call_openai svc (extract_answer_prompt research_question (py_str svc abstract))
                use_gpt4 temperature max_tokens st1 = (inr completion, st2) ->
    completion <> default_answer ->
    extraction st2 rest kept answers st3 ->
    extraction st (paper :: rest) (paper :: kept)
               ((completion ++ " SOURCE: " ++ py_str svc citation) :: answers) st3.

End ExtractionRelation.

(** The two invariants of an Answer as the specification words them,
    for any completion other than the sentinel and any citation. *)
Definition leading_text_nonempty_claim : Prop :=
  forall completion citation : string,
    completion <> default_answer ->
    exists i,
      last_occurrence SOURCE_separator (answer_with_citation completion citation) i /\
      Py.take i (answer_with_citation completion citation) <> "".

Definition single_separator_claim : Prop :=
  forall completion citation : string,
    completion <> default_answer ->
    only_occurrence SOURCE_separator (answer_with_citation completion citation)
                    (String.length completion) /\
    cites (answer_with_citation completion citation) citation.

(** The resolver as the specification words it: whatever response the
    lookup receives, a value is returned. *)
Definition resolver_never_raises_claim : Prop :=
  forall (World : Type) (svc : Services World) (doi : pyvalue) (st : state)
         (response : Response) (w : World),
    requests_get svc (citeas_url svc doi) (fst st) = (inr response, w) ->
    exists v st', get_citation_by_doi svc doi st = (inr v, st').

(** An exhausted token budget as the specification words it: when the
    prompt measures 4080 tokens or more, the synthesizer reports an error
    and issues no completion call. *)
Definition budget_exhaustion_surfaced_claim : Prop :=
  forall (World : Type) (svc : Services World) (answers : list string)
         (research_question : string) (use_gpt4 : bool) (temperature : pyvalue)
         (st : state) (tokens : list Z) (w1 : World),
    tiktoken_encode svc (synthesis_prompt answers research_question) (fst st)
    = (inr tokens, w1) ->
    (4080 <= Z.of_nat (List.length tokens))%Z ->
    exists e st',
      combine_answers svc answers research_question use_gpt4 temperature st
      = (inl e, st') /\
      snd st' = (snd st ++ [Tokenize (synthesis_prompt answers research_question)])%list.

(** [i] is the offset of the first occurrence of [sub] in [s]. *)
Definition first_occurrence (sub s : string) (i : nat) : Prop :=
  occurs_at sub s i /\ forall j, occurs_at sub s j -> (i <= j)%nat.

(** [pieces] are the pieces of [s] cut at the occurrences of [sep], found
    from the left and without overlap. *)
Inductive splits (sep : string) : string -> list string -> Prop :=
| splits_last s : lacks sep s -> splits sep s [s]
| splits_cut pre post pieces :
    first_occurrence sep (pre ++ sep ++ post) (String.length pre) ->
    splits sep post pieces ->
    splits sep (pre ++ sep ++ post) (pre :: pieces).

(** Counting the calls of a trace. *)
Definition is_completion_call (ev : event) : bool :=
  match ev with
  | CompletionCall _ _ _ _ => true
  | _ => false
  end.

Definition is_http_get (ev : event) : bool :=
  match ev with
  | HttpGet _ => true
  | _ => false
  end.

Definition completion_calls (trace : list event) : nat :=
  List.length (filter is_completion_call trace).

Definition http_gets (trace : list event) : nat :=
  List.length (filter is_http_get trace).

(** A JSON value that is neither a string nor a container. *)
Definition is_scalar (v : pyvalue) : bool :=
  match v with
  | PNone | PBool _ | PInt _ | PFloat _ => true
  | _ => false
  end.

(** Only whitespace. *)
Fixpoint all_space (s : string) : bool :=
  match s with
  | EmptyString => true
  | String c s' => Py.isspace c && all_space s'
  end.

(** Neither the first nor the last character is whitespace. *)
Definition trimmed (s : string) : Prop :=
  (forall c t, s = String c t -> Py.isspace c = false) /\
  (forall t c, s = t ++ String c "" -> Py.isspace c = false).

(** [entry] is the text of [line] between its first ": " and the next
    one, or the end of the line. *)
Definition keyword_of (line entry : string) : Prop :=
  exists label rest,
    line = label ++ ": " ++ rest /\
    first_occurrence ": " line (String.length label) /\
    ((lacks ": " rest /\ entry = rest) \/
     (exists tail, rest = entry ++ ": " ++ tail /\
                   first_occurrence ": " rest (String.length entry))).

(** The entries kept from the lines of a completion: a line with ": "
    gives its [keyword_of], a line without gives nothing, order is kept. *)
Inductive keywords_listed : list string -> list string -> Prop :=
| keywords_nil : keywords_listed [] []
| keywords_skip line rest entries :
    lacks ": " line ->
    keywords_listed rest entries ->
    keywords_listed (line :: rest) entries
| keywords_keep line entry rest entries :
    keyword_of line entry ->
    keywords_listed rest entries ->
    keywords_listed (line :: rest) (entry :: entries).

(** [segment] is what follows the last "/" of [key], or all of [key]
    when it has none. *)
Definition last_segment (key segment : string) : Prop :=
  lacks "/" segment /\
  exists dir, key = dir ++ segment /\
              (dir = "" \/ exists parent, dir = parent ++ "/").

(* ================================================================= *)
(** ** Scripted collaborators for concrete runs *)

(** The world is the list of completions still to be served; every lookup
    gets the same [response]; every text measures [ntokens] tokens. *)
Definition scripted (response : Response) (ntokens : nat) : Services (list string) :=
  {| openai_call := fun _ _ _ _ w =>
       match w with
       | [] => (inl (ExternalError "script exhausted"), [])
       | completion :: w' => (inr completion, w')
       end;
     requests_get := fun _ w => (inr response, w);
     tiktoken_encode := fun _ w => (inr (repeat 0%Z ntokens), w);
     EMAIL := "librarian@example.org";
     py_repr := fun _ => "<object>" |}.

(** The same, with the citation service out of reach. *)
Definition scripted_offline : Services (list string) :=
  {| openai_call := openai_call (scripted {| text := ""; json := inl ValueError |} 0);
     requests_get := fun _ w => (inl (ExternalError "connection refused"), w);
     tiktoken_encode := fun _ w => (inl (ExternalError "no encoding"), w);
     EMAIL := "librarian@example.org";
     py_repr := fun _ => "<object>" |}.

(** Collaborators of [autoresearcher.py]: the chat completion always has
    [content] as its text, the search always finds [papers]. *)
Definition scripted_research (content papers : pyvalue)
  : Autoresearcher.Collaborators unit :=
  {| Autoresearcher.Loader := pyvalue;
     Autoresearcher.chat_completion_content := fun _ w => (inr content, w);
     Autoresearcher.SemanticScholarLoader := fun key w => (inr key, w);
     Autoresearcher.fetch_and_sort_papers := fun _ _ _ _ w => (inr papers, w) |}.

(** Collaborators of [get_manual_answers.py]: every object of the bucket
    reads as the same bytes and opens as the same document; completions
    are served from the script. *)
Definition one_page_document (page : string) : ManualAnswers.PdfDocument :=
  {| ManualAnswers.num_pages := inr 1%Z;
     ManualAnswers.page_text :=
       fun i => if (i =? 0)%Z then inr page else inl IndexError |}.

Definition scripted_manual (body : result (list Byte.byte))
           (document : result ManualAnswers.PdfDocument)
  : ManualAnswers.Collaborators (list string) :=
  {| ManualAnswers.services := scripted {| text := ""; json := inl ValueError |} 0;
     ManualAnswers.s3_get_object_body := fun _ _ w => (body, w);
     ManualAnswers.PdfReader := fun _ w => (document, w);
     ManualAnswers.bucketName := "papers" |}.

Definition response_liu : Response :=
  {| text := "{" ++ dquote ++ "citations" ++ dquote ++ ":[{" ++ dquote ++ "citation"
             ++ dquote ++ ":" ++ dquote ++ "Liu et al. (2020)" ++ dquote ++ "}]}";
     json := inr (PDict [("citations",
                          PList [PDict [("citation", PStr "Liu et al. (2020)")]])]) |}.

Definition response_not_found : Response :=
  {| text := "Not Found"; json := inl JSONDecodeError |}.

Definition response_empty_object : Response :=
  {| text := "{}"; json := inr (PDict []) |}.

Definition paper_with_url (abstract url : string) : pyvalue :=
  PDict [("title", PStr "A paper"); ("abstract", PStr abstract); ("url", PStr url)].

Definition paper_with_doi (abstract doi : string) : pyvalue :=
  PDict [("title", PStr "A paper"); ("abstract", PStr abstract);
         ("url", PStr "https://example.org/paper");
         ("externalIds", PDict [("DOI", PStr doi)])].

(* ================================================================= *)
(** ** Strings: append, drop, take, prefix *)

Lemma append_assoc (a b c : string) : (a ++ b) ++ c = a ++ b ++ c.
Proof. induction a as [|x a IH]; simpl; [reflexivity | now rewrite IH]. Qed.

Lemma length_append (a b : string) :
  String.length (a ++ b) = (String.length a + String.length b)%nat.
Proof. induction a as [|x a IH]; simpl; [reflexivity | now rewrite IH]. Qed.

Lemma drop_nil (n : nat) : Py.drop n "" = "".
Proof. destruct n; reflexivity. Qed.

Lemma drop_length_append (a b : string) : Py.drop (String.length a) (a ++ b) = b.
Proof. induction a as [|x a IH]; simpl; [reflexivity | exact IH]. Qed.

Lemma drop_append_le (n : nat) (a b : string) :
  (n <= String.length a)%nat -> Py.drop n (a ++ b) = Py.drop n a ++ b.
Proof.
  revert a. induction n as [|n IH]; intros a L; [reflexivity|].
  destruct a as [|x a]; simpl in *; [lia|]. apply IH. lia.
Qed.

Lemma drop_add (n m : nat) (s : string) :
  Py.drop (n + m) s = Py.drop m (Py.drop n s).
Proof.
  revert s. induction n as [|n IH]; intros s; simpl; [reflexivity|].
  destruct s as [|c s]; [now rewrite drop_nil | apply IH].
Qed.

Lemma take_drop (n : nat) (s : string) : Py.take n s ++ Py.drop n s = s.
Proof.
  revert s. induction n as [|n IH]; intros [|c s]; simpl; try reflexivity.
  now rewrite IH.
Qed.

Lemma length_take (n : nat) (s : string) :
  (n <= String.length s)%nat -> String.length (Py.take n s) = n.
Proof.
  revert s. induction n as [|n IH]; intros [|c s] L; simpl in *;
    try reflexivity; try lia.
  rewrite IH; lia.
Qed.

Lemma take_length_append (a b : string) : Py.take (String.length a) (a ++ b) = a.
Proof. induction a as [|x a IH]; simpl; [now destruct b | now rewrite IH]. Qed.

Lemma take_append_ge (n : nat) (a b : string) :
  (String.length a <= n)%nat ->
  Py.take n (a ++ b) = a ++ Py.take (n - String.length a) b.
Proof.
  revert n. induction a as [|x a IH]; intros n L; simpl in *.
  - now rewrite Nat.sub_0_r.
  - destruct n as [|n]; [lia|]. simpl. rewrite IH by lia. reflexivity.
Qed.

Lemma prefix_iff (p s : string) :
  prefix p s = true <-> exists post, s = p ++ post.
Proof.
  revert s. induction p as [|c p IH]; intros s.
  - split; [intros _; exists s; reflexivity | intros _; now destruct s].
  - destruct s as [|d s]; simpl.
    + split; [discriminate | intros [post H]; discriminate].
    + destruct (ascii_dec c d) as [->|N].
      * rewrite IH. split; intros [post H]; exists post.
        -- now rewrite H.
        -- now injection H.
      * split; [discriminate | intros [post H]; injection H as H _].
        now elim N.
Qed.

Lemma prefix_append (p post : string) : prefix p (p ++ post) = true.
Proof. apply prefix_iff. now exists post. Qed.

(** Whether [p] starts [x ++ y] is decided within the first
    [length p] characters. *)
Lemma prefix_append_short (p y z : string) :
  (String.length p <= String.length y)%nat ->
  prefix p (y ++ z) = prefix p y.
Proof.
  revert y. induction p as [|c p IH]; intros y L.
  - now destruct (y ++ z), y.
  - destruct y as [|d y]; simpl in *; [lia|].
    destruct (ascii_dec c d); [apply IH; lia | reflexivity].
Qed.

Lemma prefix_append_cut (p x y z : string) :
  (String.length p <= String.length x + String.length y)%nat ->
  prefix p (x ++ y ++ z) = prefix p (x ++ y).
Proof.
  intros L. rewrite <- append_assoc. apply prefix_append_short.
  rewrite length_append. exact L.
Qed.

(* ================================================================= *)
(** ** Occurrences of a substring *)

Lemma occurs_at_iff (sub s : string) (i : nat) :
  occurs_at sub s i <->
  (i <= String.length s)%nat /\ prefix sub (Py.drop i s) = true.
Proof.
  split.
  - intros (pre & post & -> & <-). split.
    + rewrite length_append. lia.
    + rewrite drop_length_append. apply prefix_append.
  - intros [L P]. apply prefix_iff in P as [post P].
    exists (Py.take i s), post. split.
    + rewrite <- P. symmetry. apply take_drop.
    + now apply length_take.
Qed.

Lemma occurs_at_0 (sub s : string) :
  occurs_at sub s 0 <-> prefix sub s = true.
Proof. rewrite occurs_at_iff. simpl. intuition lia. Qed.

Lemma occurs_at_S (sub s : string) (c : ascii) (i : nat) :
  occurs_at sub (String c s) (S i) <-> occurs_at sub s i.
Proof. rewrite !occurs_at_iff. simpl. intuition lia. Qed.

Lemma occurs_at_nil (sub : string) (i : nat) : occurs_at sub "" i -> i = O.
Proof. rewrite occurs_at_iff. simpl. lia. Qed.

Lemma occurs_at_here (pre sub post : string) :
  occurs_at sub (pre ++ sub ++ post) (String.length pre).
Proof. now exists pre, post. Qed.

Lemma occurs_at_length (sub s : string) (i : nat) :
  occurs_at sub s i -> (i + String.length sub <= String.length s)%nat.
Proof. intros (pre & post & -> & <-). rewrite !length_append. lia. Qed.

Lemma last_index_nil (sub : string) :
  Py.last_index sub "" = if prefix sub "" then Some O else None.
Proof. reflexivity. Qed.

Lemma last_index_cons (sub s : string) (c : ascii) :
  Py.last_index sub (String c s) =
  match Py.last_index sub s with
  | Some i => Some (S i)
  | None => if prefix sub (String c s) then Some O else None
  end.
Proof. reflexivity. Qed.

Lemma last_index_None (sub s : string) :
  Py.last_index sub s = None -> lacks sub s.
Proof.
  induction s as [|d s IH].
  - rewrite last_index_nil. destruct (prefix sub "") eqn:P; [discriminate|].
    intros _ j Hj. pose proof (occurs_at_nil _ _ Hj) as ->.
    apply occurs_at_0 in Hj. congruence.
  - rewrite last_index_cons. destruct (Py.last_index sub s); [discriminate|].
    destruct (prefix sub (String d s)) eqn:P; [discriminate|].
    intros _ [|j] Hj.
    + apply occurs_at_0 in Hj. congruence.
    + apply occurs_at_S in Hj. exact (IH eq_refl j Hj).
Qed.

Lemma last_index_Some (sub s : string) (i : nat) :
  Py.last_index sub s = Some i -> last_occurrence sub s i.
Proof.
  revert i. induction s as [|c s IH]; intros i.
  - rewrite last_index_nil. destruct (prefix sub "") eqn:P; [|discriminate].
    intros [= <-]. split; [now apply occurs_at_0|].
    intros j Hj. apply occurs_at_nil in Hj. lia.
  - rewrite last_index_cons.
    destruct (Py.last_index sub s) as [k|] eqn:E.
    + intros [= <-]. destruct (IH k eq_refl) as [Hk Hmax]. split.
      * now apply occurs_at_S.
      * intros [|j] Hj; [lia|]. apply occurs_at_S in Hj.
        specialize (Hmax j Hj). lia.
    + destruct (prefix sub (String c s)) eqn:P; [|discriminate].
      intros [= <-]. split; [now apply occurs_at_0|].
      intros [|j] Hj; [lia|]. apply occurs_at_S in Hj.
      now apply (last_index_None _ _ E) in Hj.
Qed.

Lemma last_occurrence_unique (sub s : string) (i j : nat) :
  last_occurrence sub s i -> last_occurrence sub s j -> i = j.
Proof.
  intros [Hi Mi] [Hj Mj]. specialize (Mi j Hj). specialize (Mj i Hi). lia.
Qed.

Lemma last_index_complete (sub s : string) (i : nat) :
  last_occurrence sub s i -> Py.last_index sub s = Some i.
Proof.
  intros H. destruct (Py.last_index sub s) as [k|] eqn:E.
  - f_equal. eapply last_occurrence_unique; [|exact H].
    now apply last_index_Some.
  - destruct H as [H _]. now apply last_index_None in H.
Qed.

Lemma rfind_last_occurrence (s sub : string) (i : nat) :
  last_occurrence sub s i -> Py.rfind s sub = Z.of_nat i.
Proof.
  intros H. unfold Py.rfind. now rewrite (last_index_complete _ _ _ H).
Qed.

Lemma rfind_lacks (s sub : string) : lacks sub s -> Py.rfind s sub = (-1)%Z.
Proof.
  intros H. unfold Py.rfind.
  destruct (Py.last_index sub s) as [i|] eqn:E; [|reflexivity].
  apply last_index_Some in E as [E _]. now apply H in E.
Qed.

Lemma slice_from_nat (n : nat) (s : string) :
  Py.slice_from (Z.of_nat n) s = Py.drop n s.
Proof.
  unfold Py.slice_from.
  destruct (Z.ltb_spec (Z.of_nat n) 0) as [L|_]; [lia|].
  now rewrite Nat2Z.id.
Qed.

(* ================================================================= *)
(** ** The Citation Assembler *)

Lemma cites_or_lacks (answer : string) :
  lacks SOURCE_marker answer \/ exists citation, cites answer citation.
Proof.
  destruct (Py.last_index SOURCE_marker answer) as [i|] eqn:E.
  - right. apply last_index_Some in E.
    destruct E as [(pre & post & -> & <-) Hmax].
    exists post, pre. split; [reflexivity|].
    split; [apply occurs_at_here | exact Hmax].
  - left. now apply last_index_None.
Qed.

Lemma extract_citations_cons (answer : string) (rest : list string) :
  extract_citations (answer :: rest) =
  if negb (Py.rfind answer SOURCE_marker =? -1)%Z then
    Py.slice_from (Py.rfind answer SOURCE_marker + Py.len SOURCE_marker)%Z answer
      :: extract_citations rest
  else extract_citations rest.
Proof. reflexivity. Qed.

Lemma extract_citations_skip (answer : string) (rest : list string) :
  lacks SOURCE_marker answer ->
  extract_citations (answer :: rest) = extract_citations rest.
Proof.
  intros H. now rewrite extract_citations_cons, (rfind_lacks _ _ H).
Qed.

Lemma extract_citations_cite (answer citation : string) (rest : list string) :
  cites answer citation ->
  extract_citations (answer :: rest) = citation :: extract_citations rest.
Proof.
  intros (pre & -> & H).
  rewrite extract_citations_cons, (rfind_last_occurrence _ _ _ H).
  destruct (Z.eqb_spec (Z.of_nat (String.length pre)) (-1)) as [E|_]; [lia|].
  cbv [negb]. f_equal.
  change (Py.len SOURCE_marker) with (Z.of_nat 8).
  rewrite <- Nat2Z.inj_add, slice_from_nat, drop_add, drop_length_append.
  reflexivity.
Qed.

Lemma extract_citations_assembled (answers : list string) :
  assembled answers (extract_citations answers).
Proof.
  induction answers as [|answer rest IH]; [constructor|].
  destruct (cites_or_lacks answer) as [H|[citation H]].
  - rewrite (extract_citations_skip _ _ H). now constructor.
  - rewrite (extract_citations_cite _ _ _ H). now constructor.
Qed.

Lemma assembled_extract_citations (answers citations : list string) :
  assembled answers citations -> citations = extract_citations answers.
Proof.
  induction 1 as [|answer rest citations H _ IH|answer citation rest citations H _ IH].
  - reflexivity.
  - now rewrite (extract_citations_skip _ _ H).
  - now rewrite (extract_citations_cite _ _ _ H), IH.
Qed.

Lemma extract_citations_length (answers : list string) :
  (List.length (extract_citations answers) <= List.length answers)%nat.
Proof.
  induction answers as [|answer rest IH]; [simpl; lia|].
  rewrite extract_citations_cons. destruct (negb _); simpl; lia.
Qed.

(** C1.  For every list of answers, the citations returned by
    [extract_citations] are exactly those the specification describes: an
    answer containing "SOURCE: " gives the text after the last occurrence
    of the marker, verbatim; an answer without the marker is skipped; the
    order of the answers is kept.  The output is never longer than the
    input, the empty input gives the empty output, and the two answers of
    the specification's example give ["Smith (2020)"; "Jones (2021)"]. *)
Theorem extract_citations_correct (answers : list string) :
  (forall citations,
      assembled answers citations <-> citations = extract_citations answers) /\
  (List.length (extract_citations answers) <= List.length answers)%nat /\
  extract_citations [] = [] /\
  extract_citations ["AI improves diagnosis. SOURCE: Smith (2020)";
                     "AI raises cost concerns. SOURCE: Jones (2021)"]
  = ["Smith (2020)"; "Jones (2021)"].
Proof.
  split; [|split; [apply extract_citations_length | split; reflexivity]].
  intros citations. split.
  - apply assembled_extract_citations.
  - intros ->. apply extract_citations_assembled.
Qed.

(* ================================================================= *)
(** ** The effect monad *)

Section MonadLemmas.

Context {World : Type}.

Lemma bind_inr {A B : Type} (m : @M World A) (k : A -> M B) st a st1 :
  m st = (inr a, st1) -> bind m k st = k a st1.
Proof. unfold bind. now intros ->. Qed.

Lemma bind_inl {A B : Type} (m : @M World A) (k : A -> M B) st e st1 :
  m st = (inl e, st1) -> bind m k st = (inl e, st1).
Proof. unfold bind. now intros ->. Qed.

Lemma bind_inr_inv {A B : Type} (m : @M World A) (k : A -> M B) st b st2 :
  bind m k st = (inr b, st2) ->
  exists a st1, m st = (inr a, st1) /\ k a st1 = (inr b, st2).
Proof.
  unfold bind. destruct (m st) as [[e|a] st1]; [discriminate|].
  intros H. now exists a, st1.
Qed.

Lemma lift_inr_inv {A : Type} (r : result A) (st : @state World) a st1 :
  lift r st = (inr a, st1) -> r = inr a /\ st1 = st.
Proof. unfold lift. intros [= -> ->]. now split. Qed.

End MonadLemmas.

(* ================================================================= *)
(** ** The Answer Extractor *)

Lemma get_defined (paper : pyvalue) (key key' : string) (d d' v : pyvalue) :
  Py.get paper key d = inr v -> exists v', Py.get paper key' d' = inr v'.
Proof.
  destruct paper; try discriminate. intros _. simpl.
  destruct (Py.assoc key' items); eauto.
Qed.

Section ExtractorLemmas.

Context {World : Type} (svc : Services World).
Variables (research_question : string) (use_gpt4 : bool)
          (temperature : pyvalue) (max_tokens : Z).

Local Abbreviation body :=
  (process_paper svc research_question use_gpt4 temperature max_tokens).
Local Abbreviation loop :=
  (process_papers svc research_question use_gpt4 temperature max_tokens).
Local Abbreviation ask abstract :=
  (call_openai svc (extract_answer_prompt research_question (py_str svc abstract))
               use_gpt4 temperature max_tokens).

Lemma process_paper_run paper answers st abstract citation st1 completion st2 :
  Py.get paper "abstract" (PStr "") = inr abstract ->
  paper_citation svc paper st = (inr citation, st1) ->
  ask abstract st1 = (inr completion, st2) ->
  body paper answers st =
  (inr (if negb (String.eqb completion default_answer)
        then (answers ++ [answer_with_citation completion (py_str svc citation)])%list
        else answers), st2).
Proof.
  intros Ha Hc Hq. unfold process_paper.
  destruct (get_defined _ _ "title" _ (PStr "") _ Ha) as [title Ht].
  rewrite Ha, Ht. unfold lift at 1 2. unfold bind at 1 2.
  rewrite (bind_inr _ _ _ _ _ Hc).
  rewrite (bind_inr _ _ _ _ _ Hq).
  now destruct (negb _).
Qed.

Lemma process_paper_inv paper answers st answers' st2 :
  body paper answers st = (inr answers', st2) ->
  exists abstract citation st1 completion,
    Py.get paper "abstract" (PStr "") = inr abstract /\
    paper_citation svc paper st = (inr citation, st1) /\
    ask abstract st1 = (inr completion, st2) /\
    answers' = if negb (String.eqb completion default_answer)
               then (answers ++ [answer_with_citation completion (py_str svc citation)])%list
               else answers.
Proof.
  unfold process_paper. intros H.
  apply bind_inr_inv in H as (abstract & s0 & Ha & H).
  apply lift_inr_inv in Ha as [Ha ->].
  apply bind_inr_inv in H as (title & s0 & Ht & H).
  apply lift_inr_inv in Ht as [Ht ->].
  apply bind_inr_inv in H as (citation & st1 & Hc & H).
  apply bind_inr_inv in H as (completion & st2' & Hq & H).
  exists abstract, citation, st1, completion.
  destruct (negb _); inversion H; subst; auto.
Qed.

Lemma process_papers_extraction papers :
  forall acc st answers st',
    loop papers acc st = (inr answers, st') ->
    exists kept new,
      extraction svc research_question use_gpt4 temperature max_tokens
                 st papers kept new st' /\
      answers = (acc ++ new)%list.
Proof.
  induction papers as [|paper rest IH]; intros acc st answers st' H.
  - inversion H; subst. exists [], []. split; [constructor | now rewrite app_nil_r].
  - simpl in H.
    apply bind_inr_inv in H as (acc' & st2 & Hb & H).
    apply process_paper_inv in Hb
      as (abstract & citation & st1 & completion & Ha & Hc & Hq & ->).
    apply IH in H as (kept & new & Hx & ->).
    destruct (String.eqb_spec completion default_answer) as [->|N]; simpl.
    + exists kept, new. split; [|reflexivity].
      eapply extraction_discard; eauto.
    + exists (paper :: kept),
        (answer_with_citation completion (py_str svc citation) :: new).
      split; [|now rewrite <- app_assoc].
      eapply extraction_emit; eauto.
Qed.

Lemma extraction_process_papers st papers kept new st' :
  extraction svc research_question use_gpt4 temperature max_tokens
             st papers kept new st' ->
  forall acc, loop papers acc st = (inr (acc ++ new)%list, st').
Proof.
  induction 1 as [st|st st1 st2 st3 paper abstract citation rest kept answers
                     Ha Hc Hq _ IH
                 |st st1 st2 st3 paper abstract citation completion rest kept
                     answers Ha Hc Hq N _ IH]; intros acc.
  - simpl. now rewrite app_nil_r.
  - simpl.
    rewrite (bind_inr _ _ _ _ _ (process_paper_run _ acc _ _ _ _ _ _ Ha Hc Hq)).
    apply IH.
  - simpl.
    rewrite (bind_inr _ _ _ _ _ (process_paper_run _ acc _ _ _ _ _ _ Ha Hc Hq)).
    apply String.eqb_neq in N. rewrite N. simpl.
    rewrite IH. now rewrite <- app_assoc.
Qed.

Lemma extraction_subseq st papers kept answers st' :
  extraction svc research_question use_gpt4 temperature max_tokens
             st papers kept answers st' ->
  subseq kept papers /\ List.length kept = List.length answers.
Proof.
  induction 1 as [| ? ? ? ? ? ? ? ? ? ? _ _ _ _ [IH1 IH2]
                  | ? ? ? ? ? ? ? ? ? ? ? _ _ _ _ _ [IH1 IH2]].
  - split; [constructor | reflexivity].
  - split; [now constructor | exact IH2].
  - split; [now constructor | simpl; now rewrite IH2].
Qed.

End ExtractorLemmas.

(* ================================================================= *)
(** ** The separator inside an Answer *)

Lemma length_drop (n : nat) (s : string) :
  String.length (Py.drop n s) = (String.length s - n)%nat.
Proof.
  revert s. induction n as [|n IH]; intros [|c s]; simpl; try lia. apply IH.
Qed.

Lemma occurs_at_shift (sub x s : string) (j : nat) :
  occurs_at sub (x ++ s) (String.length x + j) <-> occurs_at sub s j.
Proof.
  rewrite !occurs_at_iff, length_append, drop_add, drop_length_append.
  intuition lia.
Qed.

Lemma last_occurrence_exists (sub s : string) (i : nat) :
  occurs_at sub s i -> exists j, last_occurrence sub s j.
Proof.
  intros H. destruct (Py.last_index sub s) as [j|] eqn:E.
  - exists j. now apply last_index_Some.
  - now apply last_index_None in H.
Qed.

Lemma separator_occurs (completion citation : string) :
  occurs_at SOURCE_separator (answer_with_citation completion citation)
            (String.length completion).
Proof. apply occurs_at_here. Qed.

(** An occurrence of the marker in ["SOURCE: " ++ citation] is the
    leading one or lies inside the citation. *)
Lemma marker_after_marker (citation : string) (j : nat) :
  occurs_at SOURCE_marker (SOURCE_marker ++ citation) j ->
  j = O \/ exists k, j = (8 + k)%nat /\ occurs_at SOURCE_marker citation k.
Proof.
  intros H.
  do 8 (destruct j as [|j];
        [ first [ now left
                | apply occurs_at_iff in H as [_ H]; simpl in H; discriminate ] |]).
  right. exists j. split; [reflexivity|].
  now apply (occurs_at_shift SOURCE_marker SOURCE_marker citation j).
Qed.

(** An occurrence of the separator one character to the left of an
    occurrence of the marker. *)
Lemma separator_gives_marker (s : string) (j : nat) :
  occurs_at SOURCE_separator s j -> occurs_at SOURCE_marker s (S j).
Proof.
  intros (pre & post & -> & <-). exists (pre ++ " "), post. split.
  - now rewrite append_assoc.
  - rewrite length_append. simpl. lia.
Qed.

Lemma lacks_separator_after_marker (citation : string) :
  lacks SOURCE_marker citation ->
  lacks SOURCE_separator (SOURCE_marker ++ citation).
Proof.
  intros H j Hj. apply separator_gives_marker, marker_after_marker in Hj.
  destruct Hj as [Hj | (k & _ & Hk)]; [discriminate | exact (H k Hk)].
Qed.

(** Occurrences of the separator in an Answer: to the left of the written
    separator they lie in [completion ++ " SOURCE:"], to its right in
    ["SOURCE: " ++ citation]. *)
Lemma separator_occurrence_cases (completion citation : string) (j : nat) :
  occurs_at SOURCE_separator (answer_with_citation completion citation) j ->
  occurs_at SOURCE_separator (completion ++ " SOURCE:") j \/
  j = String.length completion \/
  exists k, j = (String.length completion + 1 + k)%nat /\
            occurs_at SOURCE_separator (SOURCE_marker ++ citation) k.
Proof.
  intros H.
  destruct (Nat.lt_trichotomy j (String.length completion)) as [L|[E|G]].
  - left. apply occurs_at_iff in H as [_ H]. apply occurs_at_iff.
    split; [rewrite length_append; lia|].
    unfold answer_with_citation in H.
    change SOURCE_separator with (" SOURCE:" ++ " ") in H at 2.
    rewrite append_assoc in H.
    rewrite drop_append_le in H by lia. rewrite drop_append_le by lia.
    rewrite prefix_append_cut in H; [exact H|].
    rewrite length_drop. simpl. lia.
  - right. now left.
  - right. right. exists (j - String.length completion - 1)%nat.
    split; [lia|].
    apply (occurs_at_shift SOURCE_separator (completion ++ " ")).
    rewrite length_append. simpl String.length.
    replace (_ + _ + _)%nat with j by lia.
    unfold answer_with_citation in H. now rewrite append_assoc.
Qed.

Lemma separator_only_occurrence (completion citation : string) :
  lacks SOURCE_separator (completion ++ " SOURCE:") ->
  lacks SOURCE_separator (SOURCE_marker ++ citation) ->
  only_occurrence SOURCE_separator (answer_with_citation completion citation)
                  (String.length completion).
Proof.
  intros Hl Hr. split; [apply separator_occurs|].
  intros j Hj.
  destruct (separator_occurrence_cases _ _ _ Hj) as [H|[H|(k & _ & H)]].
  - now apply Hl in H.
  - exact H.
  - now apply Hr in H.
Qed.

Lemma answer_cites_citation (completion citation : string) :
  lacks SOURCE_marker citation ->
  cites (answer_with_citation completion citation) citation.
Proof.
  intros H. exists (completion ++ " ").
  assert (E : answer_with_citation completion citation
              = (completion ++ " ") ++ SOURCE_marker ++ citation)
    by (now rewrite append_assoc).
  split; [exact E|]. rewrite E. split; [apply occurs_at_here|].
  intros j Hj.
  destruct (Nat.le_gt_cases j (String.length (completion ++ " "))) as [L|G];
    [exact L|].
  replace j with (String.length (completion ++ " ")
                  + (j - String.length (completion ++ " ")))%nat in Hj by lia.
  apply occurs_at_shift, marker_after_marker in Hj.
  destruct Hj as [Hj | (k & _ & Hk)]; [lia | now apply H in Hk].
Qed.

(** The text before the last separator starts with the completion. *)
Lemma leading_text_starts_with_completion (completion citation : string) (i : nat) :
  last_occurrence SOURCE_separator (answer_with_citation completion citation) i ->
  (String.length completion <= i)%nat /\
  Py.take i (answer_with_citation completion citation)
  = completion ++ Py.take (i - String.length completion)
                          (SOURCE_separator ++ citation).
Proof.
  intros [_ Hmax]. pose proof (Hmax _ (separator_occurs completion citation)) as L.
  split; [exact L|]. now apply take_append_ge.
Qed.

Lemma leading_text_not_sentinel (completion citation : string) (i : nat) :
  completion <> default_answer ->
  last_occurrence SOURCE_separator (answer_with_citation completion citation) i ->
  Py.take i (answer_with_citation completion citation) <> default_answer.
Proof.
  intros N H E.
  destruct (leading_text_starts_with_completion _ _ _ H) as [L T].
  rewrite T in E. clear T H.
  assert (Hk : completion = Py.take (String.length completion) default_answer).
  { rewrite <- E. symmetry. apply take_length_append. }
  remember (String.length completion) as k eqn:Ek.
  assert (Lk : (k <= 16)%nat).
  { apply (f_equal String.length) in E. rewrite length_append in E.
    change (String.length default_answer) with 16%nat in E. lia. }
  destruct (i - k)%nat as [|[|n]];
    do 16 (destruct k as [|k]; [rewrite Hk in E; cbv in E; discriminate|]);
    (destruct k; [|lia]); now rewrite Hk in N.
Qed.

(** Two runs of the extractor on scripted collaborators: a paper with a
    DOI is cited by the resolved entry, a paper without one by its URL,
    and the paper that draws the sentinel leaves no answer. *)
Example extract_answers_with_doi :
  fst (extract_answers_from_papers
         (scripted response_liu 0)
         [paper_with_doi "Proteins interact." "10.1038/s41586-020-2003-7"]
         "Which targets?" false (PInt 0) 150 (["A map of interactions."], []))
  = inr ["A map of interactions. SOURCE: Liu et al. (2020)"].
Proof. reflexivity. Qed.

Example extract_answers_with_sentinel :
  fst (extract_answers_from_papers
         (scripted response_not_found 0)
         [paper_with_url "One." "https://example.org/p1";
          paper_with_url "Two." "https://example.org/p2"]
         "Does AI help?" false (PInt 0) 150
         (["No answer found."; "AI raises cost concerns."], []))
  = inr ["AI raises cost concerns. SOURCE: https://example.org/p2"].
Proof. reflexivity. Qed.

(** C2.  For every paper whose abstract, citation and completion are
    obtained, the loop body of [extract_answers_from_papers] leaves the
    answers unchanged when the completion equals "No answer found."
    exactly, and otherwise appends exactly the completion, " SOURCE: " and
    the citation; the text before the last separator of an appended Answer
    is never the sentinel. *)
Theorem extractor_discards_sentinel {World : Type} (svc : Services World)
    (research_question : string) (use_gpt4 : bool) (temperature : pyvalue)
    (max_tokens : Z) (paper : pyvalue) (answers : list string)
    (st st1 : state) (abstract citation : pyvalue) (completion : string)
    (w2 : World) :
  Py.get paper "abstract" (PStr "") = inr abstract ->
  paper_citation svc paper st = (inr citation, st1) ->
  openai_call svc (extract_answer_prompt research_question (py_str svc abstract))
              use_gpt4 temperature max_tokens (fst st1) = (inr completion, w2) ->
  exists answers' trace,
    process_paper svc research_question use_gpt4 temperature max_tokens
                  paper answers st = (inr answers', (w2, trace)) /\
    (completion = default_answer -> answers' = answers) /\
    (completion <> default_answer ->
     answers' = (answers ++ [(completion ++ " SOURCE: " ++ py_str svc citation)%string])%list /\
     forall i,
       last_occurrence " SOURCE: "
                       (completion ++ " SOURCE: " ++ py_str svc citation) i ->
       Py.take i (completion ++ " SOURCE: " ++ py_str svc citation)
       <> "No answer found.").
Proof.
  intros Ha Hc Hq.
  eexists. eexists. split.
  - eapply process_paper_run; [exact Ha | exact Hc |].
    unfold call_openai. rewrite Hq. reflexivity.
  - split.
    + intros ->. reflexivity.
    + intros N. split.
      * apply String.eqb_neq in N. now rewrite N.
      * intros i Hi. now apply leading_text_not_sentinel.
Qed.

Lemma extractor_discards_sentinel_witness :
  exists answers' trace,
    process_paper (scripted response_not_found 0) "Does AI help?" false (PInt 0) 150
                  (paper_with_url "AI helps." "https://example.org/p1")
                  ["Earlier. SOURCE: Doe (2019)"]
                  (["AI improves diagnosis."], [])
    = (inr answers', ([], trace)) /\
    answers' = ["Earlier. SOURCE: Doe (2019)";
                "AI improves diagnosis. SOURCE: https://example.org/p1"].
Proof.
  destruct (extractor_discards_sentinel
              (scripted response_not_found 0) "Does AI help?" false (PInt 0) 150
              (paper_with_url "AI helps." "https://example.org/p1")
              ["Earlier. SOURCE: Doe (2019)"]
              (["AI improves diagnosis."], []) (["AI improves diagnosis."], [])
              (PStr "AI helps.") (PStr "https://example.org/p1")
              "AI improves diagnosis." []
              eq_refl eq_refl eq_refl)
    as (answers' & trace & Hrun & _ & Hemit).
  exists answers', trace. split; [exact Hrun|].
  apply Hemit. discriminate.
Defined.

(** C7.  Whenever [extract_answers_from_papers] returns, its answers
    are, in order, those of a subsequence [kept] of the input papers: each
    kept paper gives one answer, every other paper drew the sentinel, and
    nothing is reordered. *)
Theorem extractor_preserves_order {World : Type} (svc : Services World)
    (papers : list pyvalue) (research_question : string) (use_gpt4 : bool)
    (temperature : pyvalue) (max_tokens : Z) (st st' : state)
    (answers : list string) :
  extract_answers_from_papers svc papers research_question use_gpt4
                              temperature max_tokens st = (inr answers, st') ->
  exists kept,
    extraction svc research_question use_gpt4 temperature max_tokens
               st papers kept answers st' /\
    subseq kept papers /\
    List.length kept = List.length answers.
Proof.
  intros H.
  destruct (process_papers_extraction svc research_question use_gpt4 temperature
              max_tokens papers [] st answers st' H) as (kept & new & Hx & ->).
  exists kept. split; [exact Hx|].
  exact (extraction_subseq _ _ _ _ _ _ _ _ _ _ Hx).
Qed.

Lemma extractor_preserves_order_witness :
  exists kept,
    extraction (scripted response_not_found 0) "Does AI help?" false (PInt 0) 150
               (["AI improves diagnosis."; "No answer found.";
                 "AI raises cost concerns."], [])
               [paper_with_url "One." "https://example.org/p1";
                paper_with_url "Two." "https://example.org/p2";
                paper_with_url "Three." "https://example.org/p3"]
               kept
               ["AI improves diagnosis. SOURCE: https://example.org/p1";
                "AI raises cost concerns. SOURCE: https://example.org/p3"]
               (snd (extract_answers_from_papers
                       (scripted response_not_found 0)
                       [paper_with_url "One." "https://example.org/p1";
                        paper_with_url "Two." "https://example.org/p2";
                        paper_with_url "Three." "https://example.org/p3"]
                       "Does AI help?" false (PInt 0) 150
                       (["AI improves diagnosis."; "No answer found.";
                         "AI raises cost concerns."], []))) /\
    subseq kept [paper_with_url "One." "https://example.org/p1";
                 paper_with_url "Two." "https://example.org/p2";
                 paper_with_url "Three." "https://example.org/p3"] /\
    List.length kept = 2%nat.
Proof.
  apply (extractor_preserves_order (scripted response_not_found 0)).
  vm_compute. reflexivity.
Defined.

(** The converse of C7's description: an extraction is what the loop
    computes. *)
Lemma extraction_is_computed {World : Type} (svc : Services World)
    (papers kept : list pyvalue) (research_question : string) (use_gpt4 : bool)
    (temperature : pyvalue) (max_tokens : Z) (st st' : state)
    (answers : list string) :
  extraction svc research_question use_gpt4 temperature max_tokens
             st papers kept answers st' ->
  extract_answers_from_papers svc papers research_question use_gpt4
                              temperature max_tokens st = (inr answers, st').
Proof.
  intros H. exact (extraction_process_papers _ _ _ _ _ _ _ _ _ _ H []).
Qed.

(** C6, on an empty completion.  A completion may be the empty string,
    which is not the sentinel: the extractor then emits an Answer that
    starts with the separator, and nothing precedes its last " SOURCE: ". *)
Lemma leading_text_empty_for_empty_completion :
  fst (extract_answers_from_papers
         (scripted response_not_found 0)
         [paper_with_url "AI helps." "https://example.org/p1"]
         "Does AI help?" false (PInt 0) 150 ([""], []))
  = inr [answer_with_citation "" "https://example.org/p1"] /\
  ~ leading_text_nonempty_claim.
Proof.
  split; [reflexivity|].
  intros claim.
  destruct (claim "" "https://example.org/p1") as (i & Hi & Ne); [discriminate|].
  assert (E : i = O).
  { eapply last_occurrence_unique; [exact Hi|].
    apply last_index_Some. reflexivity. }
  subst i. now apply Ne.
Qed.

(** C6.  In the Answer written for a non-empty completion and any
    citation, " SOURCE: " occurs, and the text before its last occurrence
    starts with the completion and so is not empty. *)
Theorem leading_text_nonempty (completion citation : string) :
  completion <> "" ->
  exists i,
    last_occurrence SOURCE_separator (answer_with_citation completion citation) i /\
    (String.length completion <= i)%nat /\
    Py.take i (answer_with_citation completion citation)
    = completion ++ Py.take (i - String.length completion)
                            (SOURCE_separator ++ citation) /\
    Py.take i (answer_with_citation completion citation) <> "".
Proof.
  intros N.
  destruct (last_occurrence_exists _ _ _ (separator_occurs completion citation))
    as [i Hi].
  destruct (leading_text_starts_with_completion _ _ _ Hi) as [L T].
  exists i. repeat split; try exact L; try exact T; try apply Hi.
  rewrite T. destruct completion; [now elim N | discriminate].
Qed.

Lemma leading_text_nonempty_witness :
  exists i,
    last_occurrence SOURCE_separator
      (answer_with_citation "AI improves diagnosis." "Smith (2020)") i /\
    (22 <= i)%nat /\
    Py.take i (answer_with_citation "AI improves diagnosis." "Smith (2020)")
    = "AI improves diagnosis."
      ++ Py.take (i - 22) (SOURCE_separator ++ "Smith (2020)") /\
    Py.take i (answer_with_citation "AI improves diagnosis." "Smith (2020)") <> "".
Proof.
  apply (leading_text_nonempty "AI improves diagnosis." "Smith (2020)").
  discriminate.
Defined.

(** C8, on a completion that quotes a source.  A completion may itself
    contain " SOURCE: "; the Answer the extractor emits for it holds the
    separator twice. *)
Lemma separator_twice_for_quoting_completion :
  fst (extract_answers_from_papers
         (scripted response_not_found 0)
         [paper_with_url "AI helps." "https://example.org/p1"]
         "Does AI help?" false (PInt 0) 150 (["See SOURCE: Smith"], []))
  = inr [answer_with_citation "See SOURCE: Smith" "https://example.org/p1"] /\
  ~ single_separator_claim.
Proof.
  split; [reflexivity|].
  intros claim.
  destruct (claim "See SOURCE: Smith" "https://example.org/p1") as [[_ U] _];
    [discriminate|].
  specialize (U 3%nat). simpl in U.
  assert (H : (3 = 17)%nat); [|discriminate H].
  apply U. exists "See", "Smith SOURCE: https://example.org/p1".
  split; reflexivity.
Qed.

(** C8.  When the completion followed by " SOURCE:" holds no
    " SOURCE: " (the completion neither contains the separator nor ends
    with " SOURCE:") and the citation holds no "SOURCE: ", the separator
    the extractor writes is the only " SOURCE: " of the Answer and the
    citation is everything after the last "SOURCE: ". *)
Theorem separator_unique_when_texts_lack_marker (completion citation : string) :
  lacks SOURCE_separator (completion ++ " SOURCE:") ->
  lacks SOURCE_marker citation ->
  only_occurrence SOURCE_separator (answer_with_citation completion citation)
                  (String.length completion) /\
  cites (answer_with_citation completion citation) citation.
Proof.
  intros Hl Hr. split.
  - apply separator_only_occurrence; [exact Hl|].
    now apply lacks_separator_after_marker.
  - now apply answer_cites_citation.
Qed.

Lemma separator_unique_when_texts_lack_marker_witness :
  only_occurrence SOURCE_separator
    (answer_with_citation "AI improves diagnosis." "Smith (2020)") 22 /\
  cites (answer_with_citation "AI improves diagnosis." "Smith (2020)")
        "Smith (2020)".
Proof.
  apply (separator_unique_when_texts_lack_marker
           "AI improves diagnosis." "Smith (2020)").
  - apply last_index_None. reflexivity.
  - apply last_index_None. reflexivity.
Defined.

(** The hypotheses of C8 are also necessary. *)
Lemma separator_unique_only_if (completion citation : string) :
  only_occurrence SOURCE_separator (answer_with_citation completion citation)
                  (String.length completion) ->
  lacks SOURCE_separator (completion ++ " SOURCE:").
Proof.
  intros [_ U] j Hj.
  pose proof (occurs_at_length _ _ _ Hj) as L.
  rewrite length_append in L. simpl in L.
  assert (H : occurs_at SOURCE_separator
                        (answer_with_citation completion citation) j).
  { apply occurs_at_iff in Hj as [_ Hj]. apply occurs_at_iff.
    unfold answer_with_citation. rewrite !length_append. split; [lia|].
    change SOURCE_separator with (" SOURCE:" ++ " ") at 2.
    rewrite append_assoc.
    rewrite drop_append_le in Hj by lia. rewrite drop_append_le by lia.
    rewrite prefix_append_cut; [exact Hj|].
    rewrite length_drop. simpl. lia. }
  apply U in H. lia.
Qed.

(** The first hypothesis of C8 in other words: the completion does not
    contain the separator and does not end with " SOURCE:". *)
Lemma lacks_before_separator_iff (completion : string) :
  lacks SOURCE_separator (completion ++ " SOURCE:") <->
  lacks SOURCE_separator completion /\
  (forall pre, completion <> pre ++ " SOURCE:").
Proof.
  split.
  - intros H. split.
    + intros j (pre & post & E & L). apply (H j).
      exists pre, (post ++ " SOURCE:"). split; [|exact L].
      now rewrite E, !append_assoc.
    + intros pre E. apply (H (String.length pre)).
      exists pre, "SOURCE:". split; [|reflexivity].
      now rewrite E, append_assoc.
  - intros [Hc He] j Hj.
    pose proof (occurs_at_length _ _ _ Hj) as L.
    rewrite length_append in L. simpl in L.
    apply occurs_at_iff in Hj as [_ P].
    rewrite drop_append_le in P by lia.
    apply prefix_iff in P as [post E].
    pose proof (take_drop j completion) as S.
    remember (Py.drop j completion) as r eqn:Er. clear Er.
    do 8 (destruct r as [|? r]; simpl in E;
          [discriminate E | injection E as -> E]).
    destruct r as [|? r]; simpl in E.
    + apply (He (Py.take j completion)). now rewrite S.
    + injection E as -> E.
      apply (Hc j). exists (Py.take j completion), r. split.
      * symmetry. exact S.
      * apply length_take. lia.
Qed.

Lemma answer_cites_only_if (completion citation : string) :
  cites (answer_with_citation completion citation) citation ->
  lacks SOURCE_marker citation.
Proof.
  intros (pre & E & [_ Hmax]) j Hj.
  assert (L : String.length pre = S (String.length completion)).
  { apply (f_equal String.length) in E. unfold answer_with_citation in E.
    rewrite !length_append in E. simpl in E. lia. }
  assert (H : occurs_at SOURCE_marker (answer_with_citation completion citation)
                        (String.length (completion ++ SOURCE_separator) + j)).
  { unfold answer_with_citation. rewrite <- append_assoc.
    now apply occurs_at_shift. }
  apply Hmax in H. rewrite length_append in H. simpl in H. lia.
Qed.

(* ================================================================= *)
(** ** The Citation Resolver *)

(** C3, on a JSON body without citations.  The body [{}] parses, the
    lookup [data["citations"]] raises [KeyError], and [except ValueError]
    does not catch it. *)
Lemma resolver_raises_on_json_without_citations :
  fst (get_citation_by_doi (scripted response_empty_object 0)
                           (PStr "10.1038/s41586-020-2003-7") ([], []))
  = inl KeyError /\
  ~ resolver_never_raises_claim.
Proof.
  split; [reflexivity|].
  intros claim.
  destruct (claim (list string) (scripted response_empty_object 0)
                  (PStr "10.1038/s41586-020-2003-7") ([], [])
                  response_empty_object [] eq_refl) as (v & st' & H).
  discriminate H.
Qed.

(** C3.  Given the response of the lookup: when its body is not JSON
    ([.json()] raises a [ValueError]), [get_citation_by_doi] returns the
    raw response text; when the body parses and holds
    [citations[0].citation], it returns exactly that entry.  Neither case
    raises. *)
Theorem resolver_result {World : Type} (svc : Services World) (doi : pyvalue)
    (st : state) (response : Response) (w : World) :
  requests_get svc (citeas_url svc doi) (fst st) = (inr response, w) ->
  (forall e,
      json response = inl e -> is_ValueError e = true ->
      get_citation_by_doi svc doi st
      = (inr (PStr (text response)),
         (w, (snd st ++ [HttpGet (citeas_url svc doi)])%list))) /\
  (forall data citations first v,
      json response = inr data ->
      Py.getitem data "citations" = inr citations ->
      Py.getitem_int citations 0 = inr first ->
      Py.getitem first "citation" = inr v ->
      get_citation_by_doi svc doi st
      = (inr v, (w, (snd st ++ [HttpGet (citeas_url svc doi)])%list))).
Proof.
  intros Hget.
  assert (R : call_requests_get svc (citeas_url svc doi) st
              = (inr response, (w, (snd st ++ [HttpGet (citeas_url svc doi)])%list))).
  { unfold call_requests_get. now rewrite Hget. }
  split.
  - intros e He Hv. unfold get_citation_by_doi.
    rewrite (bind_inr _ _ _ _ _ R).
    unfold try_except, bind, lift, ret. rewrite He, Hv. reflexivity.
  - intros data citations first v Hd Hc Hf Hv. unfold get_citation_by_doi.
    rewrite (bind_inr _ _ _ _ _ R).
    unfold try_except, bind, lift, ret. rewrite Hd, Hc, Hf, Hv. reflexivity.
Qed.

Lemma resolver_result_witness :
  get_citation_by_doi (scripted response_liu 0)
                      (PStr "10.1038/s41586-020-2003-7") ([], [])
  = (inr (PStr "Liu et al. (2020)"),
     ([], [HttpGet (citeas_url (scripted response_liu 0)
                               (PStr "10.1038/s41586-020-2003-7"))])) /\
  get_citation_by_doi (scripted response_not_found 0)
                      (PStr "10.1038/s41586-020-2003-7") ([], [])
  = (inr (PStr "Not Found"),
     ([], [HttpGet (citeas_url (scripted response_not_found 0)
                               (PStr "10.1038/s41586-020-2003-7"))])).
Proof.
  split.
  - exact (proj2 (resolver_result (scripted response_liu 0)
                    (PStr "10.1038/s41586-020-2003-7") ([], [])
                    response_liu [] eq_refl)
                 _ _ _ _ eq_refl eq_refl eq_refl eq_refl).
  - exact (proj1 (resolver_result (scripted response_not_found 0)
                    (PStr "10.1038/s41586-020-2003-7") ([], [])
                    response_not_found [] eq_refl)
                 JSONDecodeError eq_refl eq_refl).
Defined.

(* ================================================================= *)
(** ** The Review Synthesizer *)

Lemma call_openai_run {World : Type} (svc : Services World) (prompt : string)
    (use_gpt4 : bool) (temperature : pyvalue) (max_tokens : Z)
    (w : World) (trace : list event) :
  call_openai svc prompt use_gpt4 temperature max_tokens (w, trace)
  = (fst (openai_call svc prompt use_gpt4 temperature max_tokens w),
     (snd (openai_call svc prompt use_gpt4 temperature max_tokens w),
      (trace ++ [CompletionCall prompt use_gpt4 temperature max_tokens])%list)).
Proof.
  unfold call_openai. simpl fst. simpl snd.
  now destruct (openai_call svc prompt use_gpt4 temperature max_tokens w).
Qed.

Lemma combine_answers_run {World : Type} (svc : Services World)
    (answers : list string) (research_question : string) (use_gpt4 : bool)
    (temperature : pyvalue) (st : state) (tokens : list Z) (w1 : World) :
  tiktoken_encode svc (synthesis_prompt answers research_question) (fst st)
  = (inr tokens, w1) ->
  combine_answers svc answers research_question use_gpt4 temperature st
  = call_openai svc (synthesis_prompt answers research_question) use_gpt4
                temperature (Z.max (4080 - Z.of_nat (List.length tokens)) 0)
                (w1, (snd st ++ [Tokenize (synthesis_prompt answers research_question)])%list).
Proof.
  intros H. unfold combine_answers, count_tokens.
  assert (R : call_encode svc (synthesis_prompt answers research_question) st
              = (inr tokens,
                 (w1, (snd st ++ [Tokenize (synthesis_prompt answers research_question)])%list))).
  { unfold call_encode. now rewrite H. }
  unfold bind at 1. unfold bind at 1. rewrite R. reflexivity.
Qed.

(** C5.  When the tokenizer measures the rendered synthesis prompt at
    [n] tokens, [combine_answers] makes exactly one completion call, with
    that prompt and [max_tokens = max(0, 4080 - n)], and returns what the
    call returns; the budget is never negative, and is 0 for a prompt of
    4100 tokens. *)
Theorem synthesis_token_budget {World : Type} (svc : Services World)
    (answers : list string) (research_question : string) (use_gpt4 : bool)
    (temperature : pyvalue) (st : state) (tokens : list Z) (w1 : World) :
  tiktoken_encode svc (synthesis_prompt answers research_question) (fst st)
  = (inr tokens, w1) ->
  exists budget,
    budget = Z.max 0 (4080 - Z.of_nat (List.length tokens)) /\
    (0 <= budget)%Z /\
    (List.length tokens = 4100%nat -> budget = 0%Z) /\
    combine_answers svc answers research_question use_gpt4 temperature st
    = (fst (openai_call svc (synthesis_prompt answers research_question)
                        use_gpt4 temperature budget w1),
       (snd (openai_call svc (synthesis_prompt answers research_question)
                         use_gpt4 temperature budget w1),
        (snd st ++ [Tokenize (synthesis_prompt answers research_question);
                    CompletionCall (synthesis_prompt answers research_question)
                                   use_gpt4 temperature budget])%list)).
Proof.
  intros H. exists (Z.max (4080 - Z.of_nat (List.length tokens)) 0).
  split; [apply Z.max_comm|]. split; [lia|]. split; [lia|].
  rewrite (combine_answers_run _ _ _ _ _ _ _ _ H), call_openai_run.
  now rewrite <- app_assoc.
Qed.

Lemma synthesis_token_budget_witness :
  exists budget,
    budget = Z.max 0 (4080 - Z.of_nat (List.length (repeat 0%Z 4100))) /\
    (0 <= budget)%Z /\
    (List.length (repeat 0%Z 4100) = 4100%nat -> budget = 0%Z) /\
    combine_answers (scripted response_not_found 4100)
                    ["AI improves diagnosis. SOURCE: Smith (2020)"]
                    "Does AI help?" false float_0_1 (["A review."], [])
    = (fst (openai_call (scripted response_not_found 4100)
              (synthesis_prompt ["AI improves diagnosis. SOURCE: Smith (2020)"]
                                "Does AI help?")
              false float_0_1 budget ["A review."]),
       (snd (openai_call (scripted response_not_found 4100)
               (synthesis_prompt ["AI improves diagnosis. SOURCE: Smith (2020)"]
                                 "Does AI help?")
               false float_0_1 budget ["A review."]),
        [Tokenize (synthesis_prompt ["AI improves diagnosis. SOURCE: Smith (2020)"]
                                    "Does AI help?");
         CompletionCall
           (synthesis_prompt ["AI improves diagnosis. SOURCE: Smith (2020)"]
                             "Does AI help?")
           false float_0_1 budget])).
Proof.
  exact (synthesis_token_budget (scripted response_not_found 4100)
           ["AI improves diagnosis. SOURCE: Smith (2020)"] "Does AI help?"
           false float_0_1 (["A review."], []) (repeat 0%Z 4100) ["A review."]
           eq_refl).
Defined.

(** C9, on a prompt of 4100 tokens.  The budget is clamped to 0 and the
    completion call is made with it; its answer is returned as the
    narrative and no error is reported. *)
Lemma zero_budget_call_is_issued :
  combine_answers (scripted response_not_found 4100)
                  ["AI improves diagnosis. SOURCE: Smith (2020)"]
                  "Does AI help?" false float_0_1 (["A review."], [])
  = (inr "A review.",
     ([], [Tokenize (synthesis_prompt
                       ["AI improves diagnosis. SOURCE: Smith (2020)"]
                       "Does AI help?");
           CompletionCall (synthesis_prompt
                             ["AI improves diagnosis. SOURCE: Smith (2020)"]
                             "Does AI help?")
                          false float_0_1 0])) /\
  ~ budget_exhaustion_surfaced_claim.
Proof.
  split; [vm_compute; reflexivity|].
  intros claim.
  destruct (claim (list string) (scripted response_not_found 4100)
                  ["AI improves diagnosis. SOURCE: Smith (2020)"]
                  "Does AI help?" false float_0_1 (["A review."], [])
                  (repeat 0%Z 4100) ["A review."] eq_refl)
    as (e & st' & H & _).
  - rewrite repeat_length. lia.
  - vm_compute in H. discriminate H.
Qed.

(** C9.  When the prompt measures 4080 tokens or more, [combine_answers]
    makes the completion call with [max_tokens] exactly 0 (never a
    negative number) and returns whatever that call returns. *)
Theorem exhausted_budget_calls_with_zero {World : Type} (svc : Services World)
    (answers : list string) (research_question : string) (use_gpt4 : bool)
    (temperature : pyvalue) (st : state) (tokens : list Z) (w1 : World) :
  tiktoken_encode svc (synthesis_prompt answers research_question) (fst st)
  = (inr tokens, w1) ->
  (4080 <= Z.of_nat (List.length tokens))%Z ->
  combine_answers svc answers research_question use_gpt4 temperature st
  = (fst (openai_call svc (synthesis_prompt answers research_question)
                      use_gpt4 temperature 0 w1),
     (snd (openai_call svc (synthesis_prompt answers research_question)
                       use_gpt4 temperature 0 w1),
      (snd st ++ [Tokenize (synthesis_prompt answers research_question);
                  CompletionCall (synthesis_prompt answers research_question)
                                 use_gpt4 temperature 0])%list)).
Proof.
  intros H L.
  rewrite (combine_answers_run _ _ _ _ _ _ _ _ H).
  replace (Z.max (4080 - Z.of_nat (List.length tokens)) 0) with 0%Z by lia.
  rewrite call_openai_run. now rewrite <- app_assoc.
Qed.

Lemma exhausted_budget_calls_with_zero_witness :
  combine_answers (scripted response_not_found 4080) [] "Does AI help?"
                  false float_0_1 (["A review."], [])
  = (fst (openai_call (scripted response_not_found 4080)
            (synthesis_prompt [] "Does AI help?") false float_0_1 0 ["A review."]),
     (snd (openai_call (scripted response_not_found 4080)
             (synthesis_prompt [] "Does AI help?") false float_0_1 0 ["A review."]),
      [Tokenize (synthesis_prompt [] "Does AI help?");
       CompletionCall (synthesis_prompt [] "Does AI help?") false float_0_1 0])).
Proof.
  apply (exhausted_budget_calls_with_zero (scripted response_not_found 4080)
           [] "Does AI help?" false float_0_1 (["A review."], [])
           (repeat 0%Z 4080) ["A review."] eq_refl).
  rewrite repeat_length. lia.
Defined.

(* ================================================================= *)
(** ** The Pipeline Orchestrator *)

Lemma enumerate_from_lines (start : Z) (citations : list string) :
  map (fun ic => Py.str_of_int (fst ic + 1)%Z ++ ". " ++ snd ic)
      (Py.enumerate_from start citations)
  = map (fun k => Py.str_of_int (start + Z.of_nat k + 1)%Z
                  ++ ". " ++ nth k citations "")
        (seq 0 (List.length citations)).
Proof.
  revert start. induction citations as [|c rest IH]; intros start;
    [reflexivity|].
  cbn [Py.enumerate_from map List.length seq fst snd nth].
  f_equal.
  - now rewrite Z.add_0_r.
  - rewrite IH, <- seq_shift, map_map. apply map_ext. intros k.
    cbn [nth]. do 2 f_equal. lia.
Qed.

Lemma reference_lines_numbered (citations : list string) :
  Py.join nl (reference_lines citations) = numbered_references citations.
Proof.
  unfold numbered_references, reference_lines, Py.join, Py.enumerate.
  rewrite enumerate_from_lines. f_equal. apply map_ext. intros k.
  unfold numbered_line. do 2 f_equal. lia.
Qed.

(** C4.  When the extractor returns [answers] and the synthesizer
    returns [narrative] for them, [literature_review] returns the
    narrative, then "\n\nReferences:\n", then the newline-joined list of
    the citations assembled from the same answers numbered from 1, then
    "resultEnd".  With no answers the reference section has no line, the
    body being what the synthesizer returned for the empty list.  The two
    citations of the specification's example render as
    "1. Smith (2020)\n2. Jones (2021)". *)
Theorem literature_review_layout {World : Type} (svc : Services World)
    (research_question : string) (top_papers manualAnswers : list pyvalue)
    (st st1 st2 : state) (answers : list string) (narrative : string) :
  extract_answers_from_papers svc (top_papers ++ manualAnswers)%list
                              research_question false (PInt 0) 150 st
  = (inr answers, st1) ->
  combine_answers svc answers research_question false float_0_1 st1
  = (inr narrative, st2) ->
  literature_review svc research_question top_papers manualAnswers st
  = (inr (narrative ++ (nl ++ nl ++ "References:" ++ nl)
          ++ numbered_references (extract_citations answers)
          ++ "resultEnd"), st2) /\
  (answers = [] ->
   literature_review svc research_question top_papers manualAnswers st
   = (inr (narrative ++ (nl ++ nl ++ "References:" ++ nl) ++ "resultEnd"), st2)) /\
  numbered_references ["Smith (2020)"; "Jones (2021)"]
  = "1. Smith (2020)" ++ nl ++ "2. Jones (2021)".
Proof.
  intros Hx Hc.
  assert (R : literature_review svc research_question top_papers manualAnswers st
              = (inr (narrative ++ (nl ++ nl ++ "References:" ++ nl)
                      ++ numbered_references (extract_citations answers)
                      ++ "resultEnd"), st2)).
  { unfold literature_review.
    rewrite (bind_inr _ _ _ _ _ Hx), (bind_inr _ _ _ _ _ Hc).
    unfold ret. rewrite reference_lines_numbered.
    now rewrite !append_assoc. }
  split; [exact R|]. split; [|reflexivity].
  intros ->. exact R.
Qed.

Lemma literature_review_layout_witness :
  literature_review (scripted response_not_found 100) "Does AI help?"
    [paper_with_url "One." "Smith (2020)"; paper_with_url "Two." "Jones (2021)"] []
    (["AI improves diagnosis."; "AI raises cost concerns."; "A review."], [])
  = (inr ("A review." ++ (nl ++ nl ++ "References:" ++ nl)
          ++ numbered_references
               (extract_citations
                  ["AI improves diagnosis. SOURCE: Smith (2020)";
                   "AI raises cost concerns. SOURCE: Jones (2021)"])
          ++ "resultEnd"),
     snd (literature_review (scripted response_not_found 100) "Does AI help?"
            [paper_with_url "One." "Smith (2020)";
             paper_with_url "Two." "Jones (2021)"] []
            (["AI improves diagnosis."; "AI raises cost concerns."; "A review."], []))).
Proof.
  refine (proj1 (literature_review_layout (scripted response_not_found 100)
                   "Does AI help?"
                   [paper_with_url "One." "Smith (2020)";
                    paper_with_url "Two." "Jones (2021)"] []
                   (["AI improves diagnosis."; "AI raises cost concerns.";
                     "A review."], [])
                   (snd (extract_answers_from_papers
                           (scripted response_not_found 100)
                           [paper_with_url "One." "Smith (2020)";
                            paper_with_url "Two." "Jones (2021)"]
                           "Does AI help?" false (PInt 0) 150
                           (["AI improves diagnosis."; "AI raises cost concerns.";
                             "A review."], [])))
                   _
                   ["AI improves diagnosis. SOURCE: Smith (2020)";
                    "AI raises cost concerns. SOURCE: Jones (2021)"]
                   "A review." _ _)).
  - vm_compute. reflexivity.
  - vm_compute. reflexivity.
Defined.

(* ================================================================= *)
(** ** Manually supplied answers *)

Lemma process_papers_app {World : Type} (svc : Services World)
    (research_question : string) (use_gpt4 : bool) (temperature : pyvalue)
    (max_tokens : Z) (front back : list pyvalue) :
  forall (answers : list string) (st : state),
    process_papers svc research_question use_gpt4 temperature max_tokens
                   (front ++ back)%list answers st
    = bind (process_papers svc research_question use_gpt4 temperature
                           max_tokens front answers)
           (process_papers svc research_question use_gpt4 temperature
                           max_tokens back) st.
Proof.
  induction front as [|paper front IH]; intros answers st; [reflexivity|].
  cbn [app process_papers]. unfold bind.
  destruct (process_paper svc research_question use_gpt4 temperature
                          max_tokens paper answers st) as [[e|answers'] st1];
    [reflexivity|].
  rewrite IH. reflexivity.
Qed.

(** A string has no [.get]: the loop stops at the first manual answer. *)
Lemma process_papers_string {World : Type} (svc : Services World)
    (research_question : string) (use_gpt4 : bool) (temperature : pyvalue)
    (max_tokens : Z) (s : string) (rest : list pyvalue)
    (answers : list string) (st : state) :
  process_papers svc research_question use_gpt4 temperature max_tokens
                 (PStr s :: rest) answers st
  = (inl AttributeError, st).
Proof. reflexivity. Qed.

(** C10.  With a non-empty list of manual answers (strings, as
    [extract_answers] returns them), [literature_review] raises: the
    exception leaves the extraction step, so no narrative is synthesized
    and nothing is returned; and when the papers proper are extracted
    without error, it is the [AttributeError] of [.get] on the first
    manual answer, raised in the state the papers left. *)
Theorem manual_answers_abort_review {World : Type} (svc : Services World)
    (research_question : string) (top_papers : list pyvalue)
    (manualAnswers : list string) (st : state) :
  manualAnswers <> [] ->
  exists e st',
    literature_review svc research_question top_papers
                      (map PStr manualAnswers) st = (inl e, st') /\
    extract_answers_from_papers svc (top_papers ++ map PStr manualAnswers)%list
                                research_question false (PInt 0) 150 st
    = (inl e, st') /\
    (forall answers st1,
        extract_answers_from_papers svc top_papers research_question
                                    false (PInt 0) 150 st = (inr answers, st1) ->
        e = AttributeError /\ st' = st1).
Proof.
  intros N. destruct manualAnswers as [|s rest]; [now elim N|]. clear N.
  assert (X : extract_answers_from_papers svc
                (top_papers ++ map PStr (s :: rest))%list
                research_question false (PInt 0) 150 st
              = match extract_answers_from_papers svc top_papers research_question
                                                  false (PInt 0) 150 st with
                | (inl e, st1) => (inl e, st1)
                | (inr _, st1) => (inl AttributeError, st1)
                end).
  { unfold extract_answers_from_papers. rewrite process_papers_app.
    unfold bind.
    destruct (process_papers svc research_question false (PInt 0) 150
                             top_papers [] st) as [[e|answers] st1];
      [reflexivity|].
    cbn [map]. apply process_papers_string. }
  destruct (extract_answers_from_papers svc top_papers research_question
                                        false (PInt 0) 150 st)
    as [[e|answers] st1] eqn:E.
  - exists e, st1. split; [|split; [exact X|]].
    + unfold literature_review. now rewrite (bind_inl _ _ _ _ _ X).
    + intros ? ? [=].
  - exists AttributeError, st1. split; [|split; [exact X|]].
    + unfold literature_review. now rewrite (bind_inl _ _ _ _ _ X).
    + intros ? ? [= _ ->]. now split.
Qed.

Lemma manual_answers_abort_review_witness :
  exists e st',
    literature_review (scripted response_not_found 100) "Does AI help?"
      [paper_with_url "One." "https://example.org/p1"]
      (map PStr ["AI helps. SOURCE: notes.pdf"])
      (["AI improves diagnosis."; "A review."], []) = (inl e, st') /\
    extract_answers_from_papers (scripted response_not_found 100)
      ([paper_with_url "One." "https://example.org/p1"]
         ++ map PStr ["AI helps. SOURCE: notes.pdf"])%list
      "Does AI help?" false (PInt 0) 150
      (["AI improves diagnosis."; "A review."], []) = (inl e, st') /\
    (forall answers st1,
        extract_answers_from_papers (scripted response_not_found 100)
          [paper_with_url "One." "https://example.org/p1"]
          "Does AI help?" false (PInt 0) 150
          (["AI improves diagnosis."; "A review."], []) = (inr answers, st1) ->
        e = AttributeError /\ st' = st1).
Proof.
  apply (manual_answers_abort_review (scripted response_not_found 100)
           "Does AI help?" [paper_with_url "One." "https://example.org/p1"]
           ["AI helps. SOURCE: notes.pdf"]
           (["AI improves diagnosis."; "A review."], [])).
  discriminate.
Defined.

(* ================================================================= *)
(** ** Strings: membership, first occurrence, split *)

Lemma contains_iff (sub s : string) :
  Py.contains sub s = true <-> exists i, occurs_at sub s i.
Proof.
  induction s as [|c s IH].
  - cbn [Py.contains]. rewrite orb_false_r, <- occurs_at_0. split.
    + intros H. now exists O.
    + intros [i H]. now rewrite (occurs_at_nil _ _ H) in H.
  - cbn [Py.contains]. rewrite orb_true_iff, IH, <- occurs_at_0. split.
    + intros [H|[i H]]; [now exists O | exists (S i); now apply occurs_at_S].
    + intros [[|i] H]; [now left | right; exists i; now apply occurs_at_S in H].
Qed.

Lemma contains_false_iff (sub s : string) :
  Py.contains sub s = false <-> lacks sub s.
Proof.
  split.
  - intros H i Hi. assert (C : Py.contains sub s = true)
      by (apply contains_iff; now exists i). congruence.
  - intros H. destruct (Py.contains sub s) eqn:E; [|reflexivity].
    apply contains_iff in E as [i Hi]. now apply H in Hi.
Qed.

Lemma occurs_at_app_r (sub s t : string) (i : nat) :
  occurs_at sub s i -> occurs_at sub (s ++ t) i.
Proof.
  intros (pre & post & -> & L). exists pre, (post ++ t). split; [|exact L].
  now rewrite !append_assoc.
Qed.

Lemma lacks_middle (sub a b c : string) :
  lacks sub (a ++ b ++ c) -> lacks sub b.
Proof.
  intros H i (pre & post & -> & <-).
  apply (H (String.length (a ++ pre))). exists (a ++ pre), (post ++ c).
  split; [|reflexivity]. now rewrite !append_assoc.
Qed.

Lemma lacks_empty (sub : string) : sub <> "" -> lacks sub "".
Proof.
  intros N i H. pose proof (occurs_at_length _ _ _ H) as L.
  destruct sub; [now elim N | simpl in L; lia].
Qed.

(** [i] is the offset of the first occurrence of [sub] in [s]. *)
Lemma first_index_Some (sub s : string) (i : nat) :
  Py.first_index sub s = Some i ->
  occurs_at sub s i /\ forall j, occurs_at sub s j -> (i <= j)%nat.
Proof.
  revert i. induction s as [|c s IH]; intros i; cbn [Py.first_index].
  - destruct (prefix sub "") eqn:P; [|discriminate].
    intros [= <-]. split; [now apply occurs_at_0 | intros; lia].
  - destruct (prefix sub (String c s)) eqn:P.
    + intros [= <-]. split; [now apply occurs_at_0 | intros; lia].
    + destruct (Py.first_index sub s) as [k|]; [|discriminate].
      intros [= <-]. destruct (IH k eq_refl) as [Hk Hmin]. split.
      * now apply occurs_at_S.
      * intros [|j] Hj.
        -- apply occurs_at_0 in Hj. congruence.
        -- apply occurs_at_S in Hj. specialize (Hmin j Hj). lia.
Qed.

Lemma first_index_None (sub s : string) :
  Py.first_index sub s = None -> lacks sub s.
Proof.
  induction s as [|c s IH]; cbn [Py.first_index].
  - destruct (prefix sub "") eqn:P; [discriminate|].
    intros _ j Hj. pose proof (occurs_at_nil _ _ Hj) as ->.
    apply occurs_at_0 in Hj. congruence.
  - destruct (prefix sub (String c s)) eqn:P; [discriminate|].
    destruct (Py.first_index sub s); [discriminate|].
    intros _ [|j] Hj.
    + apply occurs_at_0 in Hj. congruence.
    + apply occurs_at_S in Hj. exact (IH eq_refl j Hj).
Qed.

Lemma first_index_lacks (sub s : string) :
  lacks sub s -> Py.first_index sub s = None.
Proof.
  intros H. destruct (Py.first_index sub s) as [i|] eqn:E; [|reflexivity].
  apply first_index_Some in E as [E _]. now apply H in E.
Qed.

Lemma first_index_unique (sub s : string) (i : nat) :
  occurs_at sub s i -> (forall j, occurs_at sub s j -> (i <= j)%nat) ->
  Py.first_index sub s = Some i.
Proof.
  intros Hi Hmin. destruct (Py.first_index sub s) as [k|] eqn:E.
  - apply first_index_Some in E as [Hk Hkmin].
    specialize (Hmin k Hk). specialize (Hkmin i Hi). f_equal. lia.
  - now apply first_index_None in Hi.
Qed.

Lemma split_from_nonempty (sep s : string) (skip : nat) :
  Py.split_from sep s skip <> [].
Proof.
  revert skip. induction s as [|c s IH]; intros skip; cbn [Py.split_from];
    [discriminate|].
  destruct skip; [|apply IH].
  destruct (prefix sep (String c s)); [discriminate|].
  destruct (Py.split_from sep s 0); discriminate.
Qed.

Lemma split_from_skip (sep s : string) (skip : nat) :
  (skip <= String.length s)%nat ->
  Py.split_from sep s skip = Py.split_from sep (Py.drop skip s) O.
Proof.
  revert s. induction skip as [|k IH]; intros s L; [reflexivity|].
  destruct s as [|c s]; simpl in *; [lia|]. apply IH. lia.
Qed.

Lemma split_from_first (sep s : string) :
  sep <> "" ->
  Py.split_from sep s O =
  match Py.first_index sep s with
  | None => [s]
  | Some i => Py.take i s :: Py.split_from sep (Py.drop (i + String.length sep) s) O
  end.
Proof.
  intros N. destruct sep as [|a sep0]; [now elim N|]. clear N.
  induction s as [|c s IH]; [reflexivity|].
  cbn [Py.split_from Py.first_index].
  destruct (prefix (String a sep0) (String c s)) eqn:P.
  - cbn [Py.take Nat.add String.length Nat.sub Py.drop]. f_equal.
    rewrite Nat.sub_0_r. apply split_from_skip.
    apply prefix_iff in P as [post P]. apply (f_equal String.length) in P.
    rewrite length_append in P. simpl in P. lia.
  - rewrite IH. destruct (Py.first_index (String a sep0) s) as [i|]; reflexivity.
Qed.

Lemma split_from_splits (sep : string) :
  sep <> "" -> forall s, splits sep s (Py.split_from sep s O).
Proof.
  intros N.
  assert (G : forall n s, (String.length s <= n)%nat ->
                          splits sep s (Py.split_from sep s O)).
  { induction n as [|n IH]; intros s L; rewrite (split_from_first _ _ N).
    - destruct s; [|simpl in L; lia].
      rewrite (first_index_lacks _ _ (lacks_empty _ N)).
      constructor. now apply lacks_empty.
    - destruct (Py.first_index sep s) as [i|] eqn:E.
      + pose proof (first_index_Some _ _ _ E) as F.
        destruct F as [(pre & post & -> & <-) Hmin].
        rewrite take_length_append, drop_add, !drop_length_append.
        constructor.
        * split; [apply occurs_at_here | exact Hmin].
        * apply IH. rewrite !length_append in L.
          destruct sep; [now elim N | simpl in L; lia].
      + constructor. now apply first_index_None. }
  intros s. now apply (G (String.length s)).
Qed.

Lemma splits_nonempty (sep s : string) (pieces : list string) :
  splits sep s pieces -> pieces <> [].
Proof. destruct 1; discriminate. Qed.

Lemma splits_join (sep s : string) (pieces : list string) :
  splits sep s pieces -> Py.join sep pieces = s.
Proof.
  induction 1 as [s H|pre post pieces F H IH]; [reflexivity|].
  unfold Py.join in *. cbn [String.concat].
  destruct pieces; [now apply splits_nonempty in H|]. now rewrite IH.
Qed.

Lemma splits_lack (sep s : string) (pieces : list string) :
  sep <> "" -> splits sep s pieces -> Forall (lacks sep) pieces.
Proof.
  intros N. induction 1 as [s H|pre post pieces [_ Hmin] H IH].
  - now constructor.
  - constructor; [|exact IH].
    intros j Hj. pose proof (occurs_at_length _ _ _ Hj) as L.
    apply (occurs_at_app_r _ _ (sep ++ post)) in Hj. apply Hmin in Hj.
    destruct sep; [now elim N | simpl in L; lia].
Qed.

Lemma append_inv_head (a b c : string) : a ++ b = a ++ c -> b = c.
Proof.
  induction a as [|x a IH]; simpl; intros H; [exact H|].
  injection H as H. exact (IH H).
Qed.

Lemma append_same_length (a a' b b' : string) :
  a ++ b = a' ++ b' -> String.length a = String.length a' -> a = a' /\ b = b'.
Proof.
  revert a'. induction a as [|x a IH]; intros [|x' a'] H L; simpl in *;
    try discriminate.
  - split; [reflexivity | exact H].
  - injection H as -> H. injection L as L.
    destruct (IH _ H L) as [-> ->]. split; reflexivity.
Qed.

Lemma first_occurrence_unique (sub s : string) (i j : nat) :
  first_occurrence sub s i -> first_occurrence sub s j -> i = j.
Proof.
  intros [Hi Mi] [Hj Mj]. specialize (Mi j Hj). specialize (Mj i Hi). lia.
Qed.

Lemma splits_functional (sep s : string) (pieces pieces' : list string) :
  splits sep s pieces -> splits sep s pieces' -> pieces = pieces'.
Proof.
  intros H. revert pieces'.
  induction H as [s H|pre post pieces F H IH]; intros pieces' H'.
  - remember s as s0 eqn:Es in H'.
    destruct H' as [s' H1|pre' post' ps' [F1 _] H1]; [now subst|].
    subst s. now apply H in F1.
  - remember (pre ++ sep ++ post) as s eqn:Es in H'.
    destruct H' as [s' H1|pre' post' ps' F1 H1].
    + subst s'. destruct F as [F _]. now apply H1 in F.
    + rewrite Es in F1.
      pose proof (first_occurrence_unique _ _ _ _ F F1) as L.
      symmetry in Es.
      destruct (append_same_length _ _ _ _ Es L) as [<- Ep].
      apply append_inv_head in Ep. subst post'. f_equal. now apply IH.
Qed.

(** [s.split(sep)] in terms of [splits]. *)
Lemma split_splits (s sep : string) (pieces : list string) :
  Py.split s sep = inr pieces <-> sep <> "" /\ splits sep s pieces.
Proof.
  unfold Py.split. destruct sep as [|a sep0].
  - split; [discriminate | intros [N _]; now elim N].
  - split.
    + intros [= <-]. split; [discriminate|].
      apply split_from_splits. discriminate.
    + intros [N H]. f_equal.
      eapply splits_functional; [|exact H].
      now apply split_from_splits.
Qed.

Lemma index_last {A : Type} (l : list A) (d : A) :
  l <> [] -> Py.index l (-1) = inr (List.last l d).
Proof.
  intros N. unfold Py.index. cbn [Z.ltb Z.compare].
  assert (L : (1 <= Z.of_nat (List.length l))%Z)
    by (destruct l; [now elim N | simpl List.length; lia]).
  destruct (Z.ltb_spec (-1 + Z.of_nat (List.length l)) 0) as [B|_]; [lia|].
  destruct (Z.leb_spec (Z.of_nat (List.length l))
                       (-1 + Z.of_nat (List.length l))) as [B|_]; [lia|].
  cbn [orb].
  replace (Z.to_nat (-1 + Z.of_nat (List.length l)))
    with (List.length l - 1)%nat by lia.
  clear L. induction l as [|x l IH]; [now elim N|].
  destruct l as [|y l]; [reflexivity|].
  cbn [List.length Nat.sub nth_error List.last] in *.
  rewrite <- IH by discriminate. now rewrite Nat.sub_0_r.
Qed.

(* ================================================================= *)
(** ** More on the Citation Assembler *)

Lemma cites_lacks (answer citation : string) :
  cites answer citation -> lacks SOURCE_marker citation.
Proof.
  intros (pre & -> & [_ Hmax]) j Hj.
  assert (H : occurs_at SOURCE_marker (pre ++ SOURCE_marker ++ citation)
                        (String.length (pre ++ SOURCE_marker) + j)).
  { rewrite <- append_assoc. now apply occurs_at_shift. }
  apply Hmax in H. rewrite length_append in H. simpl in H. lia.
Qed.

Lemma occurs_cites (answer : string) (i : nat) :
  occurs_at SOURCE_marker answer i -> exists citation, cites answer citation.
Proof.
  intros H. destruct (cites_or_lacks answer) as [L|C]; [now apply L in H | exact C].
Qed.

Lemma answer_has_marker (completion citation : string) :
  occurs_at SOURCE_marker (answer_with_citation completion citation)
            (S (String.length completion)).
Proof. apply separator_gives_marker, separator_occurs. Qed.

Lemma extract_citations_length_marked (answers : list string) :
  Forall (fun answer => exists i, occurs_at SOURCE_marker answer i) answers ->
  List.length (extract_citations answers) = List.length answers.
Proof.
  induction 1 as [|answer rest [i Hi] _ IH]; [reflexivity|].
  destruct (occurs_cites _ _ Hi) as [citation C].
  rewrite (extract_citations_cite _ _ _ C). simpl. now rewrite IH.
Qed.

Lemma extraction_answers_marked {World : Type} (svc : Services World)
    (research_question : string) (use_gpt4 : bool) (temperature : pyvalue)
    (max_tokens : Z) st papers kept answers st' :
  extraction svc research_question use_gpt4 temperature max_tokens
             st papers kept answers st' ->
  Forall (fun answer => exists i, occurs_at SOURCE_marker answer i) answers.
Proof.
  induction 1; [constructor | assumption |].
  constructor; [|assumption].
  eexists. apply answer_has_marker.
Qed.

Lemma reference_lines_length (citations : list string) :
  List.length (reference_lines citations) = List.length citations.
Proof.
  unfold reference_lines, Py.enumerate. rewrite length_map.
  generalize 0%Z. induction citations as [|c rest IH]; intros start;
    [reflexivity|]. simpl. now rewrite IH.
Qed.

(** X1.  Every answer the extractor returns holds the marker, so the
    assembler skips none of them: the citations, and the numbered lines
    of the review, are as many as the answers. *)
Theorem citations_one_per_extracted_answer {World : Type} (svc : Services World)
    (papers : list pyvalue) (research_question : string) (use_gpt4 : bool)
    (temperature : pyvalue) (max_tokens : Z) (st st' : state)
    (answers : list string) :
  extract_answers_from_papers svc papers research_question use_gpt4
                              temperature max_tokens st = (inr answers, st') ->
  List.length (extract_citations answers) = List.length answers /\
  List.length (reference_lines (extract_citations answers)) = List.length answers.
Proof.
  intros H.
  destruct (process_papers_extraction svc research_question use_gpt4 temperature
              max_tokens papers [] st answers st' H) as (kept & new & Hx & ->).
  assert (E : List.length (extract_citations new) = List.length new).
  { apply extract_citations_length_marked.
    eapply extraction_answers_marked. exact Hx. }
  split; [exact E|]. now rewrite reference_lines_length.
Qed.

Lemma citations_one_per_extracted_answer_witness :
  List.length
    (extract_citations
       ["AI improves diagnosis. SOURCE: https://example.org/p1"]) = 1%nat /\
  List.length
    (reference_lines
       (extract_citations
          ["AI improves diagnosis. SOURCE: https://example.org/p1"])) = 1%nat.
Proof.
  refine (citations_one_per_extracted_answer (scripted response_not_found 0)
            [paper_with_url "One." "https://example.org/p1";
             paper_with_url "Two." "https://example.org/p2"]
            "Does AI help?" false (PInt 0) 150
            (["AI improves diagnosis."; "No answer found."], [])
            (snd (extract_answers_from_papers (scripted response_not_found 0)
                    [paper_with_url "One." "https://example.org/p1";
                     paper_with_url "Two." "https://example.org/p2"]
                    "Does AI help?" false (PInt 0) 150
                    (["AI improves diagnosis."; "No answer found."], [])))
            ["AI improves diagnosis. SOURCE: https://example.org/p1"] _).
  vm_compute. reflexivity.
Defined.

(** X2.  Writing answers with line 123's format and assembling them gives
    the citations back, in order, provided no citation holds "SOURCE: ". *)
Theorem extract_citations_of_written_answers (pairs : list (string * string)) :
  Forall (fun pair => lacks SOURCE_marker (snd pair)) pairs ->
  extract_citations
    (map (fun pair => answer_with_citation (fst pair) (snd pair)) pairs)
  = map snd pairs.
Proof.
  induction 1 as [|[completion citation] rest H _ IH]; [reflexivity|].
  cbn [map fst snd] in *.
  rewrite (extract_citations_cite _ citation); [now rewrite IH|].
  now apply answer_cites_citation.
Qed.

Lemma extract_citations_of_written_answers_witness :
  extract_citations
    (map (fun pair => answer_with_citation (fst pair) (snd pair))
         [("AI improves diagnosis.", "Smith (2020)"); ("", "Jones (2021)")])
  = map snd [("AI improves diagnosis.", "Smith (2020)"); ("", "Jones (2021)")].
Proof.
  apply extract_citations_of_written_answers.
  repeat constructor; apply last_index_None; reflexivity.
Defined.

(** X3.  No citation returned by [extract_citations] holds "SOURCE: ";
    assembling the citations once more therefore gives nothing. *)
Theorem extract_citations_lack_marker (answers : list string) :
  Forall (lacks SOURCE_marker) (extract_citations answers) /\
  extract_citations (extract_citations answers) = [].
Proof.
  assert (F : Forall (lacks SOURCE_marker) (extract_citations answers)).
  { pose proof (extract_citations_assembled answers) as H.
    induction H as [|answer rest citations L _ IH
                    |answer citation rest citations C _ IH].
    - constructor.
    - exact IH.
    - constructor; [now apply (cites_lacks answer) | exact IH]. }
  split; [exact F|].
  induction F as [|citation rest L _ IH]; [reflexivity|].
  now rewrite (extract_citations_skip _ _ L).
Qed.

(** X4.  The citations of two lists of answers put end to end are the
    citations of the first followed by those of the second. *)
Theorem extract_citations_app (front back : list string) :
  extract_citations (front ++ back)%list
  = (extract_citations front ++ extract_citations back)%list.
Proof.
  induction front as [|answer rest IH]; [reflexivity|].
  cbn [app]. rewrite !extract_citations_cons, IH.
  now destruct (negb _).
Qed.

(* ================================================================= *)
(** ** More on the Answer Extractor *)

(** X5.  The loop has no handler: when a paper raises after the papers
    before it gave their answers, the whole extraction raises that
    exception, in the state the failure left, and returns no answer. *)
Theorem extractor_aborts_on_failure {World : Type} (svc : Services World)
    (front back : list pyvalue) (paper : pyvalue) (research_question : string)
    (use_gpt4 : bool) (temperature : pyvalue) (max_tokens : Z)
    (st st1 st2 : state) (answers : list string) (e : exn) :
  extract_answers_from_papers svc front research_question use_gpt4
                              temperature max_tokens st = (inr answers, st1) ->
  process_paper svc research_question use_gpt4 temperature max_tokens
                paper answers st1 = (inl e, st2) ->
  extract_answers_from_papers svc (front ++ paper :: back)%list research_question
                              use_gpt4 temperature max_tokens st
  = (inl e, st2).
Proof.
  unfold extract_answers_from_papers. intros Hf Hp.
  rewrite process_papers_app, (bind_inr _ _ _ _ _ Hf).
  cbn [process_papers]. now rewrite (bind_inl _ _ _ _ _ Hp).
Qed.

Lemma extractor_aborts_on_failure_witness :
  extract_answers_from_papers (scripted response_not_found 0)
    ([paper_with_url "One." "https://example.org/p1"]
       ++ PDict [("abstract", PStr "Two.")]
       :: [paper_with_url "Three." "https://example.org/p3"])%list
    "Does AI help?" false (PInt 0) 150
    (["AI improves diagnosis."; "AI raises cost concerns."], [])
  = (inl KeyError,
     snd (extract_answers_from_papers (scripted response_not_found 0)
            [paper_with_url "One." "https://example.org/p1"]
            "Does AI help?" false (PInt 0) 150
            (["AI improves diagnosis."; "AI raises cost concerns."], []))).
Proof.
  refine (extractor_aborts_on_failure (scripted response_not_found 0)
            [paper_with_url "One." "https://example.org/p1"]
            [paper_with_url "Three." "https://example.org/p3"]
            (PDict [("abstract", PStr "Two.")])
            "Does AI help?" false (PInt 0) 150
            (["AI improves diagnosis."; "AI raises cost concerns."], [])
            _ _ ["AI improves diagnosis. SOURCE: https://example.org/p1"]
            KeyError _ _).
  - vm_compute. reflexivity.
  - vm_compute. reflexivity.
Defined.

Lemma get_citation_by_doi_trace {World : Type} (svc : Services World)
    (doi : pyvalue) (st : state) :
  snd (snd (get_citation_by_doi svc doi st))
  = (snd st ++ [HttpGet (citeas_url svc doi)])%list.
Proof.
  unfold get_citation_by_doi, bind, call_requests_get, try_except, lift, ret.
  destruct (requests_get svc (citeas_url svc doi) (fst st)) as [[e|response] w];
    [reflexivity|].
  destruct (json response) as [e|data]; cbn [fst snd];
    [now destruct (is_ValueError e)|].
  destruct (Py.getitem data "citations") as [e|citations];
    [now destruct (is_ValueError e)|].
  destruct (Py.getitem_int citations 0) as [e|first];
    [now destruct (is_ValueError e)|].
  destruct (Py.getitem first "citation") as [e|v];
    [now destruct (is_ValueError e) | reflexivity].
Qed.

Lemma paper_citation_trace {World : Type} (svc : Services World)
    (paper : pyvalue) (st : state) :
  snd (snd (paper_citation svc paper st)) = snd st \/
  exists url, snd (snd (paper_citation svc paper st)) = (snd st ++ [HttpGet url])%list.
Proof.
  unfold paper_citation, bind, lift, ret.
  destruct (Py.has "externalIds" paper) as [e|[|]]; cbn [fst snd];
    [now left | |destruct (Py.getitem paper "url"); now left].
  destruct (Py.getitem paper "externalIds") as [e|ids]; [now left|].
  destruct (Py.has "DOI" ids) as [e|[|]]; cbn [fst snd];
    [now left | |destruct (Py.getitem paper "url"); now left].
  destruct (Py.getitem ids "DOI") as [e|doi]; [now left|].
  right. eexists. apply get_citation_by_doi_trace.
Qed.

Lemma completion_calls_app (t1 t2 : list event) :
  completion_calls (t1 ++ t2) = (completion_calls t1 + completion_calls t2)%nat.
Proof. unfold completion_calls. now rewrite filter_app, length_app. Qed.

Lemma http_gets_app (t1 t2 : list event) :
  http_gets (t1 ++ t2) = (http_gets t1 + http_gets t2)%nat.
Proof. unfold http_gets. now rewrite filter_app, length_app. Qed.

Lemma extraction_call_counts {World : Type} (svc : Services World)
    (research_question : string) (use_gpt4 : bool) (temperature : pyvalue)
    (max_tokens : Z) st papers kept answers st' :
  extraction svc research_question use_gpt4 temperature max_tokens
             st papers kept answers st' ->
  completion_calls (snd st')
  = (completion_calls (snd st) + List.length papers)%nat /\
  (http_gets (snd st') <= http_gets (snd st) + List.length papers)%nat.
Proof.
  assert (Step : forall (s s1 s2 : @state World) paper citation prompt completion,
             paper_citation svc paper s = (inr citation, s1) ->
             call_openai svc prompt use_gpt4 temperature max_tokens s1
             = (inr completion, s2) ->
             completion_calls (snd s2) = S (completion_calls (snd s)) /\
             (http_gets (snd s2) <= S (http_gets (snd s)))%nat).
  { intros s s1 s2 paper citation prompt completion Hc Hq.
    destruct s1 as [w1 t1]. rewrite call_openai_run in Hq.
    injection Hq as _ <-. cbn [snd].
    rewrite completion_calls_app, http_gets_app. cbn.
    pose proof (paper_citation_trace svc paper s) as T.
    rewrite Hc in T. cbn [snd] in T.
    destruct T as [->|[url ->]].
    - lia.
    - rewrite completion_calls_app, http_gets_app. cbn. lia. }
  induction 1 as [st
                 |st st1 st2 st3 paper abstract citation rest kept answers
                     Ha Hc Hq _ [IH1 IH2]
                 |st st1 st2 st3 paper abstract citation completion rest kept
                     answers Ha Hc Hq N _ [IH1 IH2]].
  - cbn. lia.
  - destruct (Step _ _ _ _ _ _ _ Hc Hq) as [S1 S2]. cbn [List.length]. lia.
  - destruct (Step _ _ _ _ _ _ _ Hc Hq) as [S1 S2]. cbn [List.length]. lia.
Qed.

(** X6.  When the extractor returns, it has made exactly one completion
    call per paper, discarded papers included, and at most one citation
    lookup per paper. *)
Theorem extractor_call_counts {World : Type} (svc : Services World)
    (papers : list pyvalue) (research_question : string) (use_gpt4 : bool)
    (temperature : pyvalue) (max_tokens : Z) (st st' : state)
    (answers : list string) :
  extract_answers_from_papers svc papers research_question use_gpt4
                              temperature max_tokens st = (inr answers, st') ->
  completion_calls (snd st')
  = (completion_calls (snd st) + List.length papers)%nat /\
  (http_gets (snd st') <= http_gets (snd st) + List.length papers)%nat /\
  (List.length answers <= List.length papers)%nat.
Proof.
  intros H.
  destruct (process_papers_extraction svc research_question use_gpt4 temperature
              max_tokens papers [] st answers st' H) as (kept & new & Hx & ->).
  destruct (extraction_call_counts _ _ _ _ _ _ _ _ _ _ Hx) as [C1 C2].
  split; [exact C1|]. split; [exact C2|].
  destruct (extraction_subseq _ _ _ _ _ _ _ _ _ _ Hx) as [Hs HL].
  cbn [app]. rewrite <- HL.
  clear - Hs. induction Hs; simpl; lia.
Qed.

Lemma extractor_call_counts_witness :
  completion_calls
    (snd (snd (extract_answers_from_papers (scripted response_liu 0)
                 [paper_with_doi "One." "10.1038/s41586-020-2003-7";
                  paper_with_url "Two." "https://example.org/p2"]
                 "Does AI help?" false (PInt 0) 150
                 (["AI improves diagnosis."; "No answer found."], []))))
  = (completion_calls (@nil event) + 2)%nat /\
  (http_gets
     (snd (snd (extract_answers_from_papers (scripted response_liu 0)
                  [paper_with_doi "One." "10.1038/s41586-020-2003-7";
                   paper_with_url "Two." "https://example.org/p2"]
                  "Does AI help?" false (PInt 0) 150
                  (["AI improves diagnosis."; "No answer found."], []))))
   <= http_gets (@nil event) + 2)%nat /\
  (List.length ["AI improves diagnosis. SOURCE: Liu et al. (2020)"] <= 2)%nat.
Proof.
  refine (extractor_call_counts (scripted response_liu 0)
            [paper_with_doi "One." "10.1038/s41586-020-2003-7";
             paper_with_url "Two." "https://example.org/p2"]
            "Does AI help?" false (PInt 0) 150
            (["AI improves diagnosis."; "No answer found."], []) _
            ["AI improves diagnosis. SOURCE: Liu et al. (2020)"] _).
  vm_compute. reflexivity.
Defined.

(** X7.  A paper without a DOI (no "externalIds", or an "externalIds"
    object without "DOI") is cited by its "url" without any lookup; when
    it has no "url" either, the extractor raises [KeyError] before any
    completion call. *)
Theorem paper_without_doi_cited_by_url {World : Type} (svc : Services World)
    (items : list (string * pyvalue)) (st : state) :
  Py.assoc "externalIds" items = None \/
  (exists ids, Py.assoc "externalIds" items = Some (PDict ids) /\
               Py.assoc "DOI" ids = None) ->
  paper_citation svc (PDict items) st
  = (match Py.assoc "url" items with
     | Some url => inr url
     | None => inl KeyError
     end, st) /\
  (Py.assoc "url" items = None ->
   forall research_question use_gpt4 temperature max_tokens answers,
     process_paper svc research_question use_gpt4 temperature max_tokens
                   (PDict items) answers st = (inl KeyError, st)).
Proof.
  intros H.
  assert (C : paper_citation svc (PDict items) st
              = (match Py.assoc "url" items with
                 | Some url => inr url
                 | None => inl KeyError
                 end, st)).
  { unfold paper_citation, bind, lift, ret. cbn [Py.has Py.getitem].
    destruct H as [->|(ids & -> & Hd)]; cbn [Py.has]; [|rewrite Hd];
      now destruct (Py.assoc "url" items). }
  split; [exact C|].
  intros Hu research_question use_gpt4 temperature max_tokens answers.
  rewrite Hu in C. unfold process_paper. cbn [Py.get].
  destruct (Py.assoc "abstract" items), (Py.assoc "title" items);
    unfold lift at 1 2; unfold bind at 1 2;
    now rewrite (bind_inl _ _ _ _ _ C).
Qed.

Lemma paper_without_doi_cited_by_url_witness :
  paper_citation (scripted response_liu 0)
                 (PDict [("abstract", PStr "One.");
                         ("externalIds", PDict [("ArXiv", PStr "2001.00001")])])
                 (["AI improves diagnosis."], [])
  = (inl KeyError, (["AI improves diagnosis."], [])) /\
  (Py.assoc "url" [("abstract", PStr "One.");
                   ("externalIds", PDict [("ArXiv", PStr "2001.00001")])] = None ->
   forall research_question use_gpt4 temperature max_tokens answers,
     process_paper (scripted response_liu 0) research_question use_gpt4
                   temperature max_tokens
                   (PDict [("abstract", PStr "One.");
                           ("externalIds", PDict [("ArXiv", PStr "2001.00001")])])
                   answers (["AI improves diagnosis."], [])
     = (inl KeyError, (["AI improves diagnosis."], []))).
Proof.
  apply (paper_without_doi_cited_by_url (scripted response_liu 0)
           [("abstract", PStr "One.");
            ("externalIds", PDict [("ArXiv", PStr "2001.00001")])]
           (["AI improves diagnosis."], [])).
  right. exists [("ArXiv", PStr "2001.00001")]. split; reflexivity.
Defined.

(** X8.  A paper whose "externalIds" is [null] (or a number or a
    boolean) makes the extractor raise [TypeError] at the test
    ["DOI" in paper["externalIds"]], before any lookup or completion
    call, even when the paper has a "url". *)
Theorem paper_with_null_external_ids_raises {World : Type} (svc : Services World)
    (items : list (string * pyvalue)) (ids : pyvalue)
    (research_question : string) (use_gpt4 : bool) (temperature : pyvalue)
    (max_tokens : Z) (answers : list string) (st : state) :
  Py.assoc "externalIds" items = Some ids ->
  is_scalar ids = true ->
  process_paper svc research_question use_gpt4 temperature max_tokens
                (PDict items) answers st = (inl TypeError, st).
Proof.
  intros Hi Hs.
  assert (C : paper_citation svc (PDict items) st = (inl TypeError, st)).
  { unfold paper_citation, bind, lift, ret. cbn [Py.has Py.getitem].
    rewrite Hi. now destruct ids. }
  unfold process_paper. cbn [Py.get].
  destruct (Py.assoc "abstract" items), (Py.assoc "title" items);
    unfold lift at 1 2; unfold bind at 1 2;
    now rewrite (bind_inl _ _ _ _ _ C).
Qed.

Lemma paper_with_null_external_ids_raises_witness :
  process_paper (scripted response_liu 0) "Does AI help?" false (PInt 0) 150
                (PDict [("abstract", PStr "One.");
                        ("url", PStr "https://example.org/p1");
                        ("externalIds", PNone)])
                [] (["AI improves diagnosis."], [])
  = (inl TypeError, (["AI improves diagnosis."], [])).
Proof.
  apply (paper_with_null_external_ids_raises (scripted response_liu 0)
           [("abstract", PStr "One."); ("url", PStr "https://example.org/p1");
            ("externalIds", PNone)] PNone);
    reflexivity.
Defined.

(* ================================================================= *)
(** ** More on the Citation Resolver and the Review Synthesizer *)

(** X9.  [requests.get] is called outside the [try]: whatever it raises,
    a [ValueError] included, leaves [get_citation_by_doi]; so does what
    [.json()] raises when it is not a [ValueError]. *)
Theorem resolver_propagates_errors {World : Type} (svc : Services World)
    (doi : pyvalue) (st : state) (e : exn) (w : World) :
  requests_get svc (citeas_url svc doi) (fst st) = (inl e, w) \/
  (exists response,
      requests_get svc (citeas_url svc doi) (fst st) = (inr response, w) /\
      json response = inl e /\ is_ValueError e = false) ->
  get_citation_by_doi svc doi st
  = (inl e, (w, (snd st ++ [HttpGet (citeas_url svc doi)])%list)).
Proof.
  unfold get_citation_by_doi, bind, call_requests_get, try_except, lift, ret.
  intros [->|(response & -> & -> & ->)]; reflexivity.
Qed.

Lemma resolver_propagates_errors_witness :
  get_citation_by_doi scripted_offline (PStr "10.1038/s41586-020-2003-7") ([], [])
  = (inl (ExternalError "connection refused"),
     ([], ([] ++ [HttpGet (citeas_url scripted_offline
                                      (PStr "10.1038/s41586-020-2003-7"))])%list)).
Proof.
  apply (resolver_propagates_errors scripted_offline
           (PStr "10.1038/s41586-020-2003-7") ([], [])).
  left. reflexivity.
Defined.

(** X10.  When the tokenizer raises, [combine_answers] raises the same
    exception and makes no completion call. *)
Theorem synthesis_stops_when_tokenizer_fails {World : Type} (svc : Services World)
    (answers : list string) (research_question : string) (use_gpt4 : bool)
    (temperature : pyvalue) (st : state) (e : exn) (w1 : World) :
  tiktoken_encode svc (synthesis_prompt answers research_question) (fst st)
  = (inl e, w1) ->
  combine_answers svc answers research_question use_gpt4 temperature st
  = (inl e, (w1, (snd st ++ [Tokenize (synthesis_prompt answers research_question)])%list))
  /\
  completion_calls
    (snd (snd (combine_answers svc answers research_question use_gpt4
                               temperature st)))
  = completion_calls (snd st).
Proof.
  intros H.
  assert (R : combine_answers svc answers research_question use_gpt4 temperature st
              = (inl e, (w1, (snd st ++ [Tokenize (synthesis_prompt answers
                                                    research_question)])%list))).
  { unfold combine_answers, count_tokens, bind, call_encode. now rewrite H. }
  split; [exact R|]. rewrite R. cbn [snd].
  rewrite completion_calls_app. cbn. lia.
Qed.

Lemma synthesis_stops_when_tokenizer_fails_witness :
  combine_answers scripted_offline ["AI improves diagnosis. SOURCE: Smith (2020)"]
                  "Does AI help?" false float_0_1 (["A review."], [])
  = (inl (ExternalError "no encoding"),
     (["A review."],
      ([] ++ [Tokenize (synthesis_prompt
                          ["AI improves diagnosis. SOURCE: Smith (2020)"]
                          "Does AI help?")])%list))
  /\
  completion_calls
    (snd (snd (combine_answers scripted_offline
                 ["AI improves diagnosis. SOURCE: Smith (2020)"]
                 "Does AI help?" false float_0_1 (["A review."], []))))
  = completion_calls (@nil event).
Proof.
  apply (synthesis_stops_when_tokenizer_fails scripted_offline
           ["AI improves diagnosis. SOURCE: Smith (2020)"] "Does AI help?"
           false float_0_1 (["A review."], [])).
  reflexivity.
Defined.

(* ================================================================= *)
(** ** Strings: strip *)

Lemma all_space_app (a b : string) :
  all_space (a ++ b) = all_space a && all_space b.
Proof.
  induction a as [|c a IH]; [reflexivity|]. simpl. now rewrite IH, andb_assoc.
Qed.

Lemma lstrip_spec (s : string) :
  exists l, s = l ++ Py.lstrip s /\ all_space l = true /\
            forall c t, Py.lstrip s = String c t -> Py.isspace c = false.
Proof.
  induction s as [|c s (l & E & A & H)].
  - exists "". repeat split. discriminate.
  - cbn [Py.lstrip]. destruct (Py.isspace c) eqn:Sc.
    + exists (String c l). simpl. rewrite Sc, A. repeat split; [|exact H].
      now rewrite <- E.
    + exists "". repeat split. intros c' t [= <- _]. exact Sc.
Qed.

Lemma rstrip_spec (s : string) :
  exists r, s = Py.rstrip s ++ r /\ all_space r = true /\
            forall t c, Py.rstrip s = t ++ String c "" -> Py.isspace c = false.
Proof.
  induction s as [|c s (r & E & A & H)].
  - exists "". repeat split. intros [|? ?]; discriminate.
  - cbn [Py.rstrip]. destruct (Py.rstrip s) as [|d r0] eqn:R.
    + simpl in E. subst r. destruct (Py.isspace c) eqn:Sc.
      * exists (String c s). simpl. rewrite Sc, A. repeat split.
        intros [|? ?]; discriminate.
      * exists s. repeat split; [exact A|].
        intros [|x t] c' E'; simpl in E'.
        -- injection E' as <-. exact Sc.
        -- injection E' as _ E'. destruct t; discriminate.
    + exists r. repeat split; [simpl; f_equal; exact E | exact A|].
      intros [|x t] c' E'; simpl in E'; [discriminate|].
      injection E' as _ E'. exact (H _ _ E').
Qed.

Lemma strip_spec (s : string) :
  exists l r, s = l ++ Py.strip s ++ r /\
              all_space l = true /\ all_space r = true /\
              trimmed (Py.strip s).
Proof.
  unfold Py.strip.
  destruct (lstrip_spec s) as (l & El & Al & Hl).
  destruct (rstrip_spec (Py.lstrip s)) as (r & Er & Ar & Hr).
  exists l, r. split; [now rewrite <- Er|]. split; [exact Al|]. split; [exact Ar|].
  split; [|exact Hr].
  intros c t E. rewrite E in Er. simpl in Er. exact (Hl _ _ Er).
Qed.

Lemma lstrip_trimmed (s : string) :
  (forall c t, s = String c t -> Py.isspace c = false) -> Py.lstrip s = s.
Proof.
  destruct s as [|c s]; [reflexivity|]. intros H. simpl.
  now rewrite (H c s eq_refl).
Qed.

Lemma rstrip_trimmed (s : string) :
  (forall t c, s = t ++ String c "" -> Py.isspace c = false) -> Py.rstrip s = s.
Proof.
  induction s as [|c s IH]; [reflexivity|]. intros H. cbn [Py.rstrip].
  destruct s as [|d s].
  - simpl. now rewrite (H "" c eq_refl).
  - rewrite IH; [reflexivity|].
    intros t c' E. apply (H (String c t)). simpl. now rewrite E.
Qed.

Lemma strip_trimmed (s : string) : trimmed s -> Py.strip s = s.
Proof.
  intros [Hl Hr]. unfold Py.strip. rewrite (lstrip_trimmed _ Hl).
  now apply rstrip_trimmed.
Qed.

(* ================================================================= *)
(** ** autoresearcher.py: the completion call *)

Lemma autoresearcher_openai_call_run {World : Type}
    (col : Autoresearcher.Collaborators World) (prompt : string)
    (use_gpt4 : bool) (temperature : pyvalue) (max_tokens : Z) (st : state) :
  Autoresearcher.openai_call col prompt use_gpt4 temperature max_tokens st
  = let kwargs := if use_gpt4
                  then Autoresearcher.gpt_4_kwargs prompt temperature max_tokens
                  else Autoresearcher.gpt_3_5_turbo_kwargs prompt temperature
                                                           max_tokens in
    match Autoresearcher.chat_completion_content col kwargs (fst st) with
    | (inl e, w) => (inl e, (w, snd st))
    | (inr content, w) => (Py.method_strip content, (w, snd st))
    end.
Proof.
  unfold Autoresearcher.openai_call, Autoresearcher.call_chat, bind, lift.
  destruct use_gpt4; cbn [negb];
    destruct (Autoresearcher.chat_completion_content col _ (fst st))
      as [[e|content] w]; reflexivity.
Qed.

(** X11.  Whenever [openai_call] of [autoresearcher.py] returns, the text
    it returns is the content of the completion without the whitespace
    around it: it neither starts nor ends with a whitespace character,
    and the request named the model "gpt-4" exactly when [use_gpt4]. *)
Theorem openai_call_returns_trimmed_text {World : Type}
    (col : Autoresearcher.Collaborators World) (prompt : string)
    (use_gpt4 : bool) (temperature : pyvalue) (max_tokens : Z)
    (st st' : state) (answer : string) :
  Autoresearcher.openai_call col prompt use_gpt4 temperature max_tokens st
  = (inr answer, st') ->
  exists kwargs before after,
    Autoresearcher.chat_completion_content col kwargs (fst st)
    = (inr (PStr (before ++ answer ++ after)), fst st') /\
    Py.assoc "model" kwargs
    = Some (PStr (if use_gpt4 then "gpt-4" else "gpt-3.5-turbo")) /\
    Py.assoc "max_tokens" kwargs = Some (PInt max_tokens) /\
    Py.assoc "temperature" kwargs = Some temperature /\
    all_space before = true /\ all_space after = true /\
    trimmed answer /\ snd st' = snd st.
Proof.
  rewrite autoresearcher_openai_call_run. cbv zeta.
  destruct (Autoresearcher.chat_completion_content col _ (fst st))
    as [[e|content] w] eqn:E; [discriminate|].
  destruct content; try discriminate. cbn [Py.method_strip].
  intros [= <- <-].
  destruct (strip_spec s) as (l & r & Es & Al & Ar & T).
  eexists. exists l, r. rewrite <- Es. cbn [fst snd].
  split; [exact E|].
  repeat split; try assumption; try apply T; now destruct use_gpt4.
Qed.

Lemma openai_call_returns_trimmed_text_witness :
  exists kwargs before after,
    Autoresearcher.chat_completion_content
      (scripted_research (PStr (" KeywordCombination: AI,health" ++ nl)) (PList []))
      kwargs tt
    = (inr (PStr (before ++ "KeywordCombination: AI,health" ++ after)), tt) /\
    Py.assoc "model" kwargs = Some (PStr "gpt-3.5-turbo") /\
    Py.assoc "max_tokens" kwargs = Some (PInt 200) /\
    Py.assoc "temperature" kwargs = Some (PInt 0) /\
    all_space before = true /\ all_space after = true /\
    trimmed "KeywordCombination: AI,health" /\ @nil event = [].
Proof.
  apply (openai_call_returns_trimmed_text
           (scripted_research (PStr (" KeywordCombination: AI,health" ++ nl))
                              (PList []))
           "Keywords?" false (PInt 0) 200 (tt, []) (tt, [])
           "KeywordCombination: AI,health").
  reflexivity.
Defined.

(** X12.  When the completion has no text ([content] is not a string),
    [openai_call] of [autoresearcher.py] raises [AttributeError]. *)
Theorem openai_call_without_text_raises {World : Type}
    (col : Autoresearcher.Collaborators World) (prompt : string)
    (use_gpt4 : bool) (temperature : pyvalue) (max_tokens : Z)
    (st : state) (content : pyvalue) (w : World) :
  Autoresearcher.chat_completion_content
    col (if use_gpt4
         then Autoresearcher.gpt_4_kwargs prompt temperature max_tokens
         else Autoresearcher.gpt_3_5_turbo_kwargs prompt temperature max_tokens)
    (fst st) = (inr content, w) ->
  (forall s, content <> PStr s) ->
  Autoresearcher.openai_call col prompt use_gpt4 temperature max_tokens st
  = (inl AttributeError, (w, snd st)).
Proof.
  intros E N. rewrite autoresearcher_openai_call_run. cbv zeta. rewrite E.
  destruct content; try reflexivity. now elim (N s).
Qed.

Lemma openai_call_without_text_raises_witness :
  Autoresearcher.openai_call (scripted_research PNone (PList []))
                             "Keywords?" true (PInt 0) 200 (tt, [])
  = (inl AttributeError, (tt, [])).
Proof.
  apply (openai_call_without_text_raises (scripted_research PNone (PList []))
           "Keywords?" true (PInt 0) 200 (tt, []) PNone tt).
  - reflexivity.
  - discriminate.
Defined.

(* ================================================================= *)
(** ** autoresearcher.py: keyword combinations *)

Lemma index_1 {A : Type} (a b : A) (l : list A) :
  Py.index (a :: b :: l) 1 = inr b.
Proof.
  unfold Py.index. cbn [Z.ltb Z.compare List.length].
  destruct (Z.leb_spec (Z.of_nat (S (S (List.length l)))) 1) as [B|_]; [lia|].
  reflexivity.
Qed.

Lemma keyword_entries_cons (combination : string) (rest : list string) :
  Autoresearcher.keyword_entries (combination :: rest) =
  if Py.contains ": " combination then
    match Py.split combination ": " with
    | inl e => inl e
    | inr parts =>
        match Py.index parts 1 with
        | inl e => inl e
        | inr entry =>
            match Autoresearcher.keyword_entries rest with
            | inl e => inl e
            | inr entries => inr (entry :: entries)
            end
        end
    end
  else Autoresearcher.keyword_entries rest.
Proof. reflexivity. Qed.

(** The second piece of a line that holds ": ". *)
Lemma second_piece (line : string) (i : nat) :
  occurs_at ": " line i ->
  exists label entry pieces,
    Py.split line ": " = inr (label :: entry :: pieces) /\
    keyword_of line entry /\ lacks ": " entry.
Proof.
  intros Hi.
  assert (N : ": " <> "") by discriminate.
  pose proof (split_from_splits ": " N line) as H.
  unfold Py.split. cbn iota.
  destruct H as [s L|label rest pieces F H]; [now apply L in Hi|].
  pose proof (splits_lack _ _ _ N H) as Lk.
  destruct H as [s L|entry tail pieces' F' H'].
  - exists label, s, []. split; [reflexivity|].
    split; [|now inversion Lk].
    exists label, s. split; [reflexivity|]. split; [exact F|]. now left.
  - exists label, entry, pieces'. split; [reflexivity|].
    split; [|now inversion Lk].
    exists label, (entry ++ ": " ++ tail). split; [reflexivity|].
    split; [exact F|]. right. now exists tail.
Qed.

Lemma keyword_entries_listed (combinations : list string) :
  exists entries,
    Autoresearcher.keyword_entries combinations = inr entries /\
    keywords_listed combinations entries /\
    Forall (lacks ": ") entries /\
    (List.length entries <= List.length combinations)%nat.
Proof.
  induction combinations as [|line rest (entries & E & K & F & L)].
  - exists []. repeat split; constructor.
  - rewrite keyword_entries_cons.
    destruct (Py.contains ": " line) eqn:C.
    + apply contains_iff in C as [i Hi].
      destruct (second_piece _ _ Hi) as (label & entry & pieces & S & Kw & Lk).
      rewrite S, index_1, E. exists (entry :: entries).
      repeat split; [now constructor | now constructor | simpl; lia].
    + apply contains_false_iff in C. exists entries.
      repeat split; [exact E | now constructor | exact F | simpl; lia].
Qed.

Lemma keyword_of_part (line entry : string) :
  keyword_of line entry -> exists before after, line = before ++ entry ++ after.
Proof.
  intros (label & rest & -> & _ & [[_ ->]|(tail & -> & _)]).
  - exists (label ++ ": "), "". rewrite append_assoc.
    f_equal. f_equal. clear. induction rest; simpl; congruence.
  - exists (label ++ ": "), (": " ++ tail). now rewrite append_assoc.
Qed.

Lemma keywords_listed_lack (sub : string) (lines entries : list string) :
  Forall (lacks sub) lines -> keywords_listed lines entries ->
  Forall (lacks sub) entries.
Proof.
  intros F K. induction K as [|line rest entries L K IH
                              |line entry rest entries Kw K IH].
  - constructor.
  - apply IH. now inversion F.
  - inversion F as [|? ? Fl Fr]; subst. constructor; [|now apply IH].
    destruct (keyword_of_part _ _ Kw) as (before & after & E).
    rewrite E in Fl. exact (lacks_middle _ _ _ _ Fl).
Qed.

(** X13.  Whatever text the completion holds, the parsing of
    [generate_keyword_combinations] does not raise: it returns, for each
    line of the trimmed text that holds ": ", in order, the text between
    the first ": " of the line and the next one (or the end of the
    line).  No entry holds ": " or a newline, and there are no more
    entries than lines. *)
Theorem keyword_combinations_parsed {World : Type}
    (col : Autoresearcher.Collaborators World) (research_question : string)
    (st : state) (text : string) (w : World) :
  Autoresearcher.chat_completion_content
    col (Autoresearcher.gpt_3_5_turbo_kwargs
           (Autoresearcher.keyword_combination_prompt research_question)
           (PInt 0) 200)
    (fst st) = (inr (PStr text), w) ->
  exists lines entries,
    Autoresearcher.generate_keyword_combinations col research_question st
    = (inr entries, (w, snd st)) /\
    splits nl (Py.strip text) lines /\
    keywords_listed lines entries /\
    Forall (fun entry => lacks ": " entry /\ lacks nl entry) entries /\
    (List.length entries <= List.length lines)%nat.
Proof.
  intros E.
  assert (N : nl <> "") by discriminate.
  pose proof (split_from_splits nl N (Py.strip text)) as Hs.
  destruct (keyword_entries_listed (Py.split_from nl (Py.strip text) O))
    as (entries & Ek & K & F & L).
  exists (Py.split_from nl (Py.strip text) O), entries.
  split; [|split; [exact Hs|split; [exact K|split; [|exact L]]]].
  - unfold Autoresearcher.generate_keyword_combinations.
    assert (R : Autoresearcher.openai_call col
                  (Autoresearcher.keyword_combination_prompt research_question)
                  false (PInt 0) 200 st
                = (inr (Py.strip text), (w, snd st))).
    { rewrite autoresearcher_openai_call_run. cbv zeta. now rewrite E. }
    rewrite (bind_inr _ _ _ _ _ R).
    unfold bind, lift. cbn [Py.split nl]. now rewrite Ek.
  - pose proof (keywords_listed_lack nl _ _ (splits_lack _ _ _ N Hs) K) as Fn.
    clear - F Fn. induction F; inversion Fn; subst; constructor; auto.
Qed.

Lemma keyword_combinations_parsed_witness :
  exists lines entries,
    Autoresearcher.generate_keyword_combinations
      (scripted_research
         (PStr ("KeywordCombination: AI,health" ++ nl ++ "Sure!" ++ nl
                ++ "KeywordCombination: AI: cost" ++ nl))
         (PList []))
      "Does AI help?" (tt, [])
    = (inr entries, (tt, [])) /\
    splits nl
      (Py.strip ("KeywordCombination: AI,health" ++ nl ++ "Sure!" ++ nl
                 ++ "KeywordCombination: AI: cost" ++ nl))
      lines /\
    keywords_listed lines entries /\
    Forall (fun entry => lacks ": " entry /\ lacks nl entry) entries /\
    (List.length entries <= List.length lines)%nat.
Proof.
  apply (keyword_combinations_parsed
           (scripted_research
              (PStr ("KeywordCombination: AI,health" ++ nl ++ "Sure!" ++ nl
                     ++ "KeywordCombination: AI: cost" ++ nl))
              (PList []))
           "Does AI help?" (tt, [])).
  reflexivity.
Defined.

(** The run of the witness: the line without ": " is dropped and the
    second combination is cut at its second ": ". *)
Example keyword_combinations_run :
  fst (Autoresearcher.generate_keyword_combinations
         (scripted_research
            (PStr ("KeywordCombination: AI,health" ++ nl ++ "Sure!" ++ nl
                   ++ "KeywordCombination: AI: cost" ++ nl))
            (PList []))
         "Does AI help?" (tt, []))
  = inr ["AI,health"; "AI"].
Proof. reflexivity. Qed.

Lemma occurs_in_front (sub a b : string) (j : nat) :
  occurs_at sub (a ++ b) j -> (j + String.length sub <= String.length a)%nat ->
  occurs_at sub a j.
Proof.
  intros H L. apply occurs_at_iff in H as [_ H]. apply occurs_at_iff.
  split; [lia|]. rewrite drop_append_le in H by lia.
  rewrite prefix_append_short in H; [exact H|]. rewrite length_drop. lia.
Qed.

Lemma lacks_app_char (c : ascii) (a b : string) :
  lacks (String c "") a -> lacks (String c "") b ->
  lacks (String c "") (a ++ b).
Proof.
  intros Ha Hb j Hj.
  destruct (Nat.le_gt_cases (j + 1) (String.length a)) as [L|G].
  - apply (Ha j). now apply (occurs_in_front _ _ b).
  - apply (Hb (j - String.length a)%nat).
    apply (occurs_at_shift _ a).
    now replace (String.length a + (j - String.length a))%nat with j by lia.
Qed.

Lemma first_occurrence_newline (line rest : string) :
  lacks nl line ->
  first_occurrence nl (line ++ nl ++ rest) (String.length line).
Proof.
  intros H. split; [apply occurs_at_here|].
  intros j Hj. destruct (Nat.le_gt_cases (String.length line) j) as [L|G];
    [exact L|].
  exfalso. apply (H j). apply (occurs_in_front _ _ (nl ++ rest)); [exact Hj|].
  simpl. lia.
Qed.

Lemma first_occurrence_colon (label rest : string) :
  lacks ": " label ->
  first_occurrence ": " (label ++ ": " ++ rest) (String.length label).
Proof.
  intros H. split; [apply occurs_at_here|].
  intros j Hj. destruct (Nat.le_gt_cases (String.length label) j) as [L|G];
    [exact L|].
  exfalso.
  destruct (Nat.le_gt_cases (j + 2) (String.length label)) as [L2|G2].
  - apply (H j). now apply (occurs_in_front _ _ (": " ++ rest)).
  - apply occurs_at_iff in Hj as [_ Hj].
    rewrite drop_append_le in Hj by lia.
    pose proof (length_drop j label) as Ld.
    destruct (Py.drop j label) as [|c [|d r]]; simpl in Ld; try lia.
    apply prefix_iff in Hj as [post Hj]. simpl in Hj. discriminate Hj.
Qed.

Lemma splits_joined_lines (lines : list string) :
  lines <> [] -> Forall (lacks nl) lines ->
  splits nl (Py.join nl lines) lines.
Proof.
  intros N F. induction F as [|line rest H F IH]; [now elim N|].
  destruct rest as [|line2 rest].
  - now constructor.
  - change (Py.join nl (line :: line2 :: rest))
      with (line ++ nl ++ Py.join nl (line2 :: rest)).
    constructor; [now apply first_occurrence_newline|].
    apply IH. discriminate.
Qed.

Lemma keyword_entries_of_written_lines (pairs : list (string * string)) :
  Forall (fun pair => lacks ": " (fst pair) /\ lacks ": " (snd pair)) pairs ->
  Autoresearcher.keyword_entries
    (map (fun pair => fst pair ++ ": " ++ snd pair) pairs)
  = inr (map snd pairs).
Proof.
  induction 1 as [|[label keywords] rest [Hl Hk] _ IH]; [reflexivity|].
  cbn [map fst snd] in *. rewrite keyword_entries_cons.
  assert (C : Py.contains ": " (label ++ ": " ++ keywords) = true).
  { apply contains_iff. eexists. apply occurs_at_here. }
  assert (S : Py.split (label ++ ": " ++ keywords) ": " = inr [label; keywords]).
  { apply split_splits. split; [discriminate|].
    constructor; [now apply first_occurrence_colon | now constructor]. }
  now rewrite C, S, index_1, IH.
Qed.

(** X14.  A completion written in the requested format is read back
    exactly: when the trimmed text is the lines [label: keywords] joined
    by newlines, no label or keyword list holding ": " or a newline,
    [generate_keyword_combinations] returns the keyword lists in order. *)
Theorem keyword_combinations_round_trip {World : Type}
    (col : Autoresearcher.Collaborators World) (research_question : string)
    (st : state) (text : string) (w : World) (pairs : list (string * string)) :
  Autoresearcher.chat_completion_content
    col (Autoresearcher.gpt_3_5_turbo_kwargs
           (Autoresearcher.keyword_combination_prompt research_question)
           (PInt 0) 200)
    (fst st) = (inr (PStr text), w) ->
  pairs <> [] ->
  Py.strip text
  = Py.join nl (map (fun pair => fst pair ++ ": " ++ snd pair) pairs) ->
  Forall (fun pair => lacks ": " (fst pair) /\ lacks nl (fst pair) /\
                      lacks ": " (snd pair) /\ lacks nl (snd pair)) pairs ->
  Autoresearcher.generate_keyword_combinations col research_question st
  = (inr (map snd pairs), (w, snd st)).
Proof.
  intros E N T F.
  unfold Autoresearcher.generate_keyword_combinations.
  assert (R : Autoresearcher.openai_call col
                (Autoresearcher.keyword_combination_prompt research_question)
                false (PInt 0) 200 st
              = (inr (Py.strip text), (w, snd st))).
  { rewrite autoresearcher_openai_call_run. cbv zeta. now rewrite E. }
  rewrite (bind_inr _ _ _ _ _ R), T.
  assert (S : Py.split
                (Py.join nl (map (fun pair => fst pair ++ ": " ++ snd pair) pairs))
                nl
              = inr (map (fun pair => fst pair ++ ": " ++ snd pair) pairs)).
  { apply split_splits. split; [discriminate|].
    apply splits_joined_lines.
    - destruct pairs; [now elim N | discriminate].
    - clear - F. induction F as [|[label keywords] rest (_ & Hl & _ & Hk) _ IH];
        constructor; [|exact IH].
      cbn [fst snd] in *.
      apply (lacks_app_char "010" label (": " ++ keywords)); [exact Hl|].
      apply (lacks_app_char "010" ": " keywords); [|exact Hk].
      apply last_index_None. reflexivity. }
  unfold bind, lift. rewrite S.
  rewrite keyword_entries_of_written_lines; [reflexivity|].
  clear - F. induction F as [|pair rest (Hl & _ & Hk & _) _ IH];
    constructor; auto.
Qed.

Lemma keyword_combinations_round_trip_witness :
  Autoresearcher.generate_keyword_combinations
    (scripted_research
       (PStr (nl ++ "KeywordCombination: AI,health" ++ nl
              ++ "KeywordCombination: AI,cost" ++ nl))
       (PList []))
    "Does AI help?" (tt, [])
  = (inr (map snd [("KeywordCombination", "AI,health");
                   ("KeywordCombination", "AI,cost")]), (tt, [])).
Proof.
  apply (keyword_combinations_round_trip
           (scripted_research
              (PStr (nl ++ "KeywordCombination: AI,health" ++ nl
                     ++ "KeywordCombination: AI,cost" ++ nl))
              (PList []))
           "Does AI help?" (tt, [])
           (nl ++ "KeywordCombination: AI,health" ++ nl
            ++ "KeywordCombination: AI,cost" ++ nl)
           tt
           [("KeywordCombination", "AI,health"); ("KeywordCombination", "AI,cost")]).
  - reflexivity.
  - discriminate.
  - reflexivity.
  - repeat constructor; apply last_index_None; reflexivity.
Defined.

(** X15.  [literature_review] of [autoresearcher.py] first concatenates
    "SS_key :" and its key: with a key that is not a string, the default
    [None] included, it raises [TypeError] before any search or
    completion. *)
Theorem search_without_string_key_raises {World : Type}
    (col : Autoresearcher.Collaborators World) (research_question : string)
    (SS_key : pyvalue) (st : state) :
  (forall s, SS_key <> PStr s) ->
  Autoresearcher.literature_review col research_question SS_key st
  = (inl TypeError, st).
Proof.
  intros N. unfold Autoresearcher.literature_review, bind, lift.
  destruct SS_key; try reflexivity. now elim (N s).
Qed.

Lemma search_without_string_key_raises_witness :
  Autoresearcher.literature_review
    (scripted_research (PStr "KeywordCombination: AI,health") (PList []))
    "Does AI help?" PNone (tt, [])
  = (inl TypeError, (tt, [])).
Proof.
  apply (search_without_string_key_raises
           (scripted_research (PStr "KeywordCombination: AI,health") (PList []))
           "Does AI help?" PNone (tt, [])).
  discriminate.
Defined.

(* ================================================================= *)
(** ** get_manual_answers.py: the abstract of a document *)



Lemma extract_abstract_from_pdf_run {World : Type}
    (col : ManualAnswers.Collaborators World)
    (pdf_data : option (list Byte.byte)) (page_number : Z) (st : state)
    (pdf : ManualAnswers.PdfDocument) (w : World) (pages : Z) :
  ManualAnswers.PdfReader col pdf_data (fst st) = (inr pdf, w) ->
  ManualAnswers.num_pages pdf = inr pages ->
  ManualAnswers.extract_abstract_from_pdf col pdf_data page_number st
  = if (page_number <? pages)%Z then
      match ManualAnswers.page_text pdf page_number with
      | inl e => (inl e, (w, snd st))
      | inr text =>
          match Py.first_index "abstract" (Py.lower text) with
          | Some i => (inr (PStr (Py.drop i text)), (w, snd st))
          | None => (inr PNone, (w, snd st))
          end
      end
    else (inr PNone, (w, snd st)).
Proof.
  intros Hr Hn.
  unfold ManualAnswers.extract_abstract_from_pdf, ManualAnswers.call_PdfReader,
    bind, lift, ret.
  rewrite Hr, Hn. destruct (page_number <? pages)%Z; [|reflexivity].
  destruct (ManualAnswers.page_text pdf page_number) as [e|text]; [reflexivity|].
  unfold Py.find.
  destruct (Py.first_index "abstract" (Py.lower text)) as [i|]; [|reflexivity].
  destruct (Z.eqb_spec (Z.of_nat i) (-1)) as [B|_]; [lia|].
  cbn [negb]. now rewrite slice_from_nat.
Qed.



Example abstract_of_one_page :
  fst (ManualAnswers.extract_abstract_from_pdf
         (scripted_manual (inr [])
            (inr (one_page_document "A study. ABSTRACT: AI helps.")))
         (Some []) 0 ([], []))
  = inr (PStr "ABSTRACT: AI helps.").
Proof. reflexivity. Qed.

(* ================================================================= *)
(** ** get_manual_answers.py: answers of manually supplied documents *)

Lemma append_empty_r (s : string) : s ++ "" = s.
Proof. induction s as [|c s IH]; simpl; [reflexivity | now rewrite IH]. Qed.

Lemma splits_last_piece (sep s : string) (pieces : list string) :
  sep <> "" -> splits sep s pieces ->
  lacks sep (List.last pieces "") /\
  exists dir, s = dir ++ List.last pieces "" /\
              (dir = "" \/ exists parent, dir = parent ++ sep).
Proof.
  intros N. induction 1 as [s H|pre post pieces F H (IHl & dir & E & D)].
  - split; [exact H|]. exists "". split; [reflexivity | now left].
  - assert (L : List.last (pre :: pieces) "" = List.last pieces "").
    { destruct pieces; [now apply splits_nonempty in H | reflexivity]. }
    rewrite L. split; [exact IHl|].
    exists (pre ++ sep ++ dir). split.
    + rewrite !append_assoc. now rewrite <- E.
    + right. destruct D as [->|(parent & ->)].
      * exists pre. now rewrite append_empty_r.
      * exists (pre ++ sep ++ parent). now rewrite !append_assoc.
Qed.

Lemma file_key_citation (file_key : string) :
  exists segments citation,
    Py.split file_key "/" = inr segments /\
    Py.index segments (-1) = inr citation /\
    last_segment file_key citation.
Proof.
  assert (N : "/" <> "") by discriminate.
  pose proof (split_from_splits "/" N file_key) as H.
  exists (Py.split_from "/" file_key O), (List.last (Py.split_from "/" file_key O) "").
  split; [reflexivity|]. split.
  - apply index_last. now apply splits_nonempty in H.
  - exact (splits_last_piece _ _ _ N H).
Qed.

Lemma extract_answer_from_abstract_inv {World : Type}
    (col : ManualAnswers.Collaborators World) (abstract : pyvalue)
    (research_question : string) (use_gpt4 : bool) (temperature : pyvalue)
    (max_tokens : Z) (st st' : state) (answer : option string) :
  ManualAnswers.extract_answer_from_abstract col abstract research_question
                                             use_gpt4 temperature max_tokens st
  = (inr answer, st') ->
  answer = None \/ exists completion, answer = Some completion /\
                                      completion <> default_answer.
Proof.
  unfold ManualAnswers.extract_answer_from_abstract. intros H.
  apply bind_inr_inv in H as (completion & st1 & _ & H).
  destruct (String.eqb_spec completion default_answer) as [->|N];
    cbn [negb] in H; inversion H; subst; [now left|].
  right. now exists completion.
Qed.

Lemma process_file_key_inv {World : Type}
    (col : ManualAnswers.Collaborators World)
    (bucket_name research_question : string) (use_gpt4 : bool)
    (temperature : pyvalue) (max_tokens : Z) (file_key : string)
    (answers answers' : list string) (st st' : state) :
  ManualAnswers.process_file_key col bucket_name research_question use_gpt4
                                 temperature max_tokens file_key answers st
  = (inr answers', st') ->
  answers' = answers \/
  exists completion citation,
    answers' = (answers ++ [answer_with_citation completion citation])%list /\
    completion <> "" /\ completion <> default_answer /\
    last_segment file_key citation.
Proof.
  unfold ManualAnswers.process_file_key. intros H.
  apply bind_inr_inv in H as (pdf_file & s1 & _ & H).
  apply bind_inr_inv in H as (abstract & s2 & _ & H).
  apply bind_inr_inv in H as (segments & s3 & Hs & H).
  apply lift_inr_inv in Hs as [Hs ->].
  apply bind_inr_inv in H as (citation & s4 & Hc & H).
  apply lift_inr_inv in Hc as [Hc ->].
  apply bind_inr_inv in H as (answer & s5 & Ha & H).
  destruct (file_key_citation file_key) as (segments' & citation' & Hs' & Hc' & L).
  rewrite Hs in Hs'. injection Hs' as <-.
  rewrite Hc in Hc'. injection Hc' as <-.
  apply extract_answer_from_abstract_inv in Ha.
  destruct Ha as [->|(completion & -> & N)].
  - left. now inversion H.
  - destruct completion as [|c completion].
    + left. now inversion H.
    + right. exists (String c completion), citation.
      cbn [ManualAnswers.truthy ManualAnswers.answer_text] in H.
      inversion H; subst. repeat split; try assumption; try apply L.
      discriminate.
Qed.

Lemma process_file_keys_answers {World : Type}
    (col : ManualAnswers.Collaborators World)
    (bucket_name research_question : string) (use_gpt4 : bool)
    (temperature : pyvalue) (max_tokens : Z) (file_keys : list string) :
  forall (answers result : list string) (st st' : state),
    ManualAnswers.process_file_keys col bucket_name research_question use_gpt4
                                    temperature max_tokens file_keys answers st
    = (inr result, st') ->
    exists new,
      result = (answers ++ new)%list /\
      (List.length new <= List.length file_keys)%nat /\
      Forall (fun answer =>
                exists file_key completion citation,
                  In file_key file_keys /\
                  last_segment file_key citation /\
                  answer = answer_with_citation completion citation /\
                  completion <> "" /\ completion <> default_answer) new.
Proof.
  induction file_keys as [|file_key rest IH]; intros answers result st st' H.
  - inversion H; subst. exists []. rewrite app_nil_r.
    repeat split; [simpl; lia | constructor].
  - cbn [ManualAnswers.process_file_keys] in H.
    apply bind_inr_inv in H as (answers1 & st1 & Hk & H).
    apply IH in H as (new & -> & L & F).
    assert (F' : Forall (fun answer =>
                exists file_key0 completion citation,
                  In file_key0 (file_key :: rest) /\
                  last_segment file_key0 citation /\
                  answer = answer_with_citation completion citation /\
                  completion <> "" /\ completion <> default_answer) new).
    { eapply Forall_impl; [|exact F].
      intros a (k & c & s & Hin & Hrest). exists k, c, s.
      split; [now right | exact Hrest]. }
    apply process_file_key_inv in Hk
      as [->|(completion & citation & -> & N1 & N2 & Ls)].
    + exists new. repeat split; [simpl; lia | exact F'].
    + exists (answer_with_citation completion citation :: new).
      rewrite <- app_assoc. repeat split; [simpl; lia|].
      constructor; [|exact F'].
      exists file_key, completion, citation. repeat split; try assumption.
      all: try apply Ls. now left.
Qed.

(** X17.  Every answer [extract_answer_from_paper] returns is a
    completion, " SOURCE: " and the last "/"-segment of one of the file
    keys; the completion is neither empty nor the sentinel, so some text
    precedes the last separator of the answer and the assembler finds a
    citation in it.  There are no more answers than file keys. *)
Theorem manual_answers_well_formed {World : Type}
    (col : ManualAnswers.Collaborators World)
    (bucket_name : string) (file_keys : list string) (research_question : string)
    (use_gpt4 : bool) (temperature : pyvalue) (max_tokens : Z)
    (st st' : state) (answers : list string) :
  ManualAnswers.extract_answer_from_paper col bucket_name file_keys
    research_question use_gpt4 temperature max_tokens st = (inr answers, st') ->
  (List.length answers <= List.length file_keys)%nat /\
  List.length (extract_citations answers) = List.length answers /\
  Forall (fun answer =>
            exists file_key completion citation,
              In file_key file_keys /\
              last_segment file_key citation /\
              answer = completion ++ " SOURCE: " ++ citation /\
              completion <> "" /\ completion <> "No answer found." /\
              forall i, last_occurrence " SOURCE: " answer i ->
                        Py.take i answer <> "") answers.
Proof.
  intros H. unfold ManualAnswers.extract_answer_from_paper in H.
  apply process_file_keys_answers in H as (new & -> & L & F).
  cbn [app]. split; [exact L|]. split.
  - apply extract_citations_length_marked.
    eapply Forall_impl; [|exact F].
    intros a (k & c & s & _ & _ & -> & _). eexists. apply answer_has_marker.
  - eapply Forall_impl; [|exact F].
    intros a (k & c & s & Hin & Ls & -> & N1 & N2).
    exists k, c, s. repeat split; try assumption; try apply Ls.
    intros i Hi.
    destruct (leading_text_starts_with_completion _ _ _ Hi) as [_ T].
    rewrite T. destruct c; [now elim N1 | discriminate].
Qed.

Lemma manual_answers_well_formed_witness :
  (List.length ["AI helps. SOURCE: notes.pdf"] <= 2)%nat /\
  List.length (extract_citations ["AI helps. SOURCE: notes.pdf"])
  = List.length ["AI helps. SOURCE: notes.pdf"] /\
  Forall (fun answer =>
            exists file_key completion citation,
              In file_key ["review/2023/notes.pdf"; "draft.pdf"] /\
              last_segment file_key citation /\
              answer = completion ++ " SOURCE: " ++ citation /\
              completion <> "" /\ completion <> "No answer found." /\
              forall i, last_occurrence " SOURCE: " answer i ->
                        Py.take i answer <> "")
         ["AI helps. SOURCE: notes.pdf"].
Proof.
  refine (manual_answers_well_formed
            (scripted_manual (inr [])
               (inr (one_page_document "Abstract. AI helps.")))
            "papers" ["review/2023/notes.pdf"; "draft.pdf"]
            "Does AI help?" false (PInt 0) 150
            (["AI helps."; ""], []) _ ["AI helps. SOURCE: notes.pdf"] _).
  vm_compute. reflexivity.
Defined.

(** X18.  [extract_answers] processes the pieces of [urls] between its
    commas: there is always at least one file key, joining the keys with
    commas gives [urls] back, and no key holds a comma.  For the empty
    [urls] the one key is the empty string. *)
Theorem manual_file_keys (World : Type)
    (col : ManualAnswers.Collaborators World)
    (urls research_question : string) (st : state) :
  (exists file_key file_keys,
      Py.split urls "," = inr (file_key :: file_keys) /\
      Py.join "," (file_key :: file_keys) = urls /\
      Forall (lacks ",") (file_key :: file_keys) /\
      ManualAnswers.extract_answers col urls research_question st
      = ManualAnswers.extract_answer_from_paper
          col (ManualAnswers.bucketName col) (file_key :: file_keys)
          research_question false (PInt 0) 150 st) /\
  ManualAnswers.extract_answers col "" research_question st
  = ManualAnswers.extract_answer_from_paper
      col (ManualAnswers.bucketName col) [""] research_question
      false (PInt 0) 150 st.
Proof.
  split; [|reflexivity].
  assert (N : "," <> "") by discriminate.
  pose proof (split_from_splits "," N urls) as H.
  destruct (Py.split_from "," urls O) as [|file_key file_keys] eqn:E;
    [now apply splits_nonempty in H|].
  exists file_key, file_keys.
  split; [unfold Py.split; now rewrite E|].
  split; [now apply splits_join|].
  split; [now apply (splits_lack _ _ _ N H)|].
  unfold ManualAnswers.extract_answers, bind, lift, Py.split. now rewrite E.
Qed.

Lemma read_pdf_from_s3_failure {World : Type}
    (col : ManualAnswers.Collaborators World) (bucket_name file_key : string)
    (st : state) (e : exn) (w : World) :
  ManualAnswers.s3_get_object_body col bucket_name file_key (fst st) = (inl e, w) ->
  ManualAnswers.read_pdf_from_s3 col bucket_name file_key st
  = (inr None, (w, snd st)).
Proof.
  intros H. unfold ManualAnswers.read_pdf_from_s3, try_except, bind,
              ManualAnswers.call_s3, ret.
  now rewrite H.
Qed.

(** X19.  A failed read from S3 is swallowed: [read_pdf_from_s3]
    returns [None], and the loop goes on to open that [None] as a PDF;
    when the reader raises on it, its exception, not the one of S3,
    ends [extract_answer_from_paper], whatever keys follow. *)
Theorem failed_read_reaches_pdf_reader {World : Type}
    (col : ManualAnswers.Collaborators World)
    (bucket_name file_key : string) (rest : list string)
    (research_question : string) (use_gpt4 : bool) (temperature : pyvalue)
    (max_tokens : Z) (st : state) (e e' : exn) (w w' : World) :
  ManualAnswers.s3_get_object_body col bucket_name file_key (fst st) = (inl e, w) ->
  ManualAnswers.PdfReader col None w = (inl e', w') ->
  ManualAnswers.read_pdf_from_s3 col bucket_name file_key st
  = (inr None, (w, snd st)) /\
  ManualAnswers.extract_answer_from_paper col bucket_name (file_key :: rest)
    research_question use_gpt4 temperature max_tokens st
  = (inl e', (w', snd st)).
Proof.
  intros Hs Hp.
  pose proof (read_pdf_from_s3_failure _ _ _ _ _ _ Hs) as R.
  split; [exact R|].
  unfold ManualAnswers.extract_answer_from_paper.
  cbn [ManualAnswers.process_file_keys].
  unfold ManualAnswers.process_file_key.
  unfold bind at 1. unfold bind at 1. rewrite R.
  unfold ManualAnswers.extract_abstract_from_pdf, ManualAnswers.call_PdfReader.
  unfold bind at 1. unfold bind at 1. cbn [fst snd]. now rewrite Hp.
Qed.

Lemma failed_read_reaches_pdf_reader_witness :
  ManualAnswers.read_pdf_from_s3
    (scripted_manual (inl (ExternalError "NoSuchKey"))
                     (inl (ExternalError "EmptyFileError")))
    "papers" "notes.pdf" (["AI helps."], [])
  = (inr None, (["AI helps."], [])) /\
  ManualAnswers.extract_answer_from_paper
    (scripted_manual (inl (ExternalError "NoSuchKey"))
                     (inl (ExternalError "EmptyFileError")))
    "papers" ["notes.pdf"; "draft.pdf"] "Does AI help?" false (PInt 0) 150
    (["AI helps."], [])
  = (inl (ExternalError "EmptyFileError"), (["AI helps."], [])).
Proof.
  apply (failed_read_reaches_pdf_reader
           (scripted_manual (inl (ExternalError "NoSuchKey"))
                            (inl (ExternalError "EmptyFileError")))
           "papers" "notes.pdf" ["draft.pdf"] "Does AI help?" false (PInt 0) 150
           (["AI helps."], []) (ExternalError "NoSuchKey")
           (ExternalError "EmptyFileError") ["AI helps."] ["AI helps."]);
    reflexivity.
Defined.

(** X20.  A document without an abstract is not skipped: when
    [extract_abstract_from_pdf] finds none (the first page is missing or
    holds no "abstract"), the completion is still requested, with the
    rendering of [None] where the abstract goes in the prompt. *)
Theorem missing_abstract_is_still_asked {World : Type}
    (col : ManualAnswers.Collaborators World)
    (bucket_name research_question : string) (use_gpt4 : bool)
    (temperature : pyvalue) (max_tokens : Z) (file_key : string)
    (answers : list string) (st st1 : state)
    (pdf_file : option (list Byte.byte)) (pdf : ManualAnswers.PdfDocument)
    (w2 : World) (pages : Z) :
  ManualAnswers.read_pdf_from_s3 col bucket_name file_key st = (inr pdf_file, st1) ->
  ManualAnswers.PdfReader col pdf_file (fst st1) = (inr pdf, w2) ->
  ManualAnswers.num_pages pdf = inr pages ->
  (pages <= 0)%Z \/
  (exists text, ManualAnswers.page_text pdf 0 = inr text /\
                lacks "abstract" (Py.lower text)) ->
  snd (snd (ManualAnswers.process_file_key col bucket_name research_question
              use_gpt4 temperature max_tokens file_key answers st))
  = (snd st1 ++ [CompletionCall
                   (extract_answer_prompt research_question
                      (py_repr (ManualAnswers.services col) PNone))
                   use_gpt4 temperature max_tokens])%list.
Proof.
  intros Hr Hp Hn Hm.
  assert (A : ManualAnswers.extract_abstract_from_pdf col pdf_file 0 st1
              = (inr PNone, (w2, snd st1))).
  { rewrite (extract_abstract_from_pdf_run _ _ _ _ _ _ _ Hp Hn).
    destruct Hm as [L|(text & Ht & Hl)].
    - destruct (Z.ltb_spec 0 pages); [lia | reflexivity].
    - rewrite Ht, (first_index_lacks _ _ Hl). now destruct (0 <? pages)%Z. }
  assert (Ec : Py.index (Py.split_from "/" file_key O) (-1)
               = inr (List.last (Py.split_from "/" file_key O) "")).
  { apply index_last.
    exact (splits_nonempty _ _ _ (split_from_splits "/" ltac:(discriminate) file_key)). }
  unfold ManualAnswers.process_file_key.
  rewrite (bind_inr _ _ _ _ _ Hr), (bind_inr _ _ _ _ _ A).
  unfold bind at 1. unfold lift at 1. cbn [Py.split].
  unfold bind at 1. unfold lift at 1. rewrite Ec.
  unfold ManualAnswers.extract_answer_from_abstract.
  cbn [py_str]. unfold bind. rewrite call_openai_run.
  destruct (openai_call (ManualAnswers.services col) _ use_gpt4 temperature
                        max_tokens w2) as [[e|completion] w3]; [reflexivity|].
  cbn [fst snd].
  destruct (negb (String.eqb completion default_answer)); unfold ret;
    [destruct (ManualAnswers.truthy (Some completion))|]; reflexivity.
Qed.

Lemma missing_abstract_is_still_asked_witness :
  snd (snd (ManualAnswers.process_file_key
              (scripted_manual (inr []) (inr (one_page_document "Introduction.")))
              "papers" "Does AI help?" false (PInt 0) 150 "notes.pdf" []
              (["AI helps."], [])))
  = ([] ++ [CompletionCall
              (extract_answer_prompt "Does AI help?"
                 (py_repr (ManualAnswers.services
                             (scripted_manual (inr [])
                                (inr (one_page_document "Introduction."))))
                          PNone))
              false (PInt 0) 150])%list.
Proof.
  apply (missing_abstract_is_still_asked
           (scripted_manual (inr []) (inr (one_page_document "Introduction.")))
           "papers" "Does AI help?" false (PInt 0) 150 "notes.pdf" []
           (["AI helps."], []) (["AI helps."], []) (Some [])
           (one_page_document "Introduction.") ["AI helps."] 1
           eq_refl eq_refl eq_refl).
  right. exists "Introduction.". split; [reflexivity|].
  apply last_index_None. reflexivity.
Defined.
